(** * Coospo BK467 receiver: decoder and rate estimators

    A shallow embedding of the class [BK467] of [BK467-Server.py] and of the
    polling routine [generate_json_str] that reads it.

    Python integers are unbounded and are modelled by [Z]; Python floats are
    IEEE binary64 numbers and are modelled by the primitive floats of the
    kernel, which have the same format and rounding.  The methods of the
    class read and write the fields of [self] and may raise; they are
    modelled in a state-and-exception monad over the record of the fields. *)

From Stdlib Require Import ZArith List Bool Lia String.
From Stdlib Require Import Floats.
Import ListNotations.

Local Open Scope Z_scope.

#[local] Set Warnings "-inexact-float".

(** ** Numbers *)

(** A Python number as the methods return it: [get_cadence] returns the
    integer [0] on one path and a float on the other. *)
Inductive pynum : Type :=
| PyInt (z : Z)
| PyFloat (f : float).

(** [float(z)] for the integers the program meets.  The conversion is exact
    below [2^53] and rounds to nearest below [2^63]; the fields decoded from a
    byte payload stay below [2^32]. *)
Definition float_of_Z (z : Z) : float :=
  match z with
  | Z0 => 0%float
  | Zpos _ => PrimFloat.of_uint63 (Uint63.of_Z z)
  | Zneg p => PrimFloat.opp (PrimFloat.of_uint63 (Uint63.of_Z (Zpos p)))
  end.

(** [int(f)]: truncation toward zero; [None] stands for the exception Python
    raises on an infinity or a NaN. *)
Definition int_of_float (f : float) : option Z :=
  match Prim2SF f with
  | S754_zero _ => Some 0
  | S754_finite s m e =>
      let a := if 0 <=? e then Z.shiftl (Zpos m) e else Z.shiftr (Zpos m) (- e) in
      Some (if s then - a else a)
  | S754_infinity _ | S754_nan => None
  end.

(** ** The object and its methods *)

Inductive Mode : Type := speed | cadence.

Definition Mode_eqb (a b : Mode) : bool :=
  match a, b with
  | speed, speed | cadence, cadence => true
  | _, _ => false
  end.

(** The string a mode is reported as. *)
Definition mode_str (m : Mode) : string :=
  match m with
  | speed => "speed"
  | cadence => "cadence"
  end.

(** The transport's client object; only its presence is read here. *)
Record BleakClient : Type := mkBleakClient { address : string }.

(** The fields of a [BK467] object.  [data] is the single slot holding the
    latest notification payload. *)
Record BK467 : Type := mkBK467 {
  client : option BleakClient;
  data : list Z;
  prev_combo_csc_cum_wheel_rev : Z;
  prev_combo_csc_wheel_time : Z;
  prev_cum_crank_rev : Z;
  prev_crank_time : Z;
  prev_crank_staleness : Z;
  prev_rpm : float
}.

(** [BK467()]: no client, a payload of seven zeros, and the class-level
    defaults of the estimator fields. *)
Definition init : BK467 :=
  {| client := None;
     data := [0; 0; 0; 0; 0; 0; 0];
     prev_combo_csc_cum_wheel_rev := 0;
     prev_combo_csc_wheel_time := 0;
     prev_cum_crank_rev := 0;
     prev_crank_time := 0;
     prev_crank_staleness := 0;
     prev_rpm := 0%float |}.

Inductive exn : Type :=
| ValueError   (* raised by [_check_device_connected] *)
| IndexError.  (* raised by an index outside the payload *)

(** A method run: the outcome (an exception or a value) and the object
    after it.  Assignments made before a raise stay made. *)
Definition M (A : Type) : Type := BK467 -> (exn + A) * BK467.

Definition ret {A} (a : A) : M A := fun s => (inr a, s).
Definition raise {A} (e : exn) : M A := fun s => (inl e, s).
Definition bind {A B} (m : M A) (k : A -> M B) : M B :=
  fun s =>
    match m s with
    | (inl e, s') => (inl e, s')
    | (inr a, s') => k a s'
    end.
Definition gets {A} (f : BK467 -> A) : M A := fun s => (inr (f s), s).
Definition modify (f : BK467 -> BK467) : M unit := fun s => (inr tt, f s).

Declare Scope bk_scope.
Delimit Scope bk_scope with bk.
Notation "x <- m ;; k" := (bind m (fun x => k))
  (at level 61, m at next level, right associativity) : bk_scope.
Notation "m ;;; k" := (bind m (fun _ => k))
  (at level 61, right associativity) : bk_scope.
Local Open Scope bk_scope.

(** [connect] as far as the object is concerned: the first client is kept. *)
Definition connect (c : BleakClient) (s : BK467) : BK467 :=
  match client s with
  | Some _ => s
  | None =>
      mkBK467 (Some c) (data s)
        (prev_combo_csc_cum_wheel_rev s) (prev_combo_csc_wheel_time s)
        (prev_cum_crank_rev s) (prev_crank_time s)
        (prev_crank_staleness s) (prev_rpm s)
  end.

(** [speed_and_cadence_notify]: the payload slot is overwritten. *)
Definition speed_and_cadence_notify (d : list Z) (s : BK467) : BK467 :=
  mkBK467 (client s) d
    (prev_combo_csc_cum_wheel_rev s) (prev_combo_csc_wheel_time s)
    (prev_cum_crank_rev s) (prev_crank_time s)
    (prev_crank_staleness s) (prev_rpm s).

Definition _check_device_connected : M unit :=
  fun s =>
    match client s with
    | None => raise ValueError s
    | Some _ => ret tt s
    end.

(** [self.data[i]] for a constant index [i >= 0]. *)
Definition data_at (i : nat) : M Z :=
  fun s =>
    match nth_error (data s) i with
    | Some b => ret b s
    | None => raise IndexError s
    end.

Definition get_mode : M Mode :=
  _check_device_connected ;;;
  b0 <- data_at 0 ;;
  let is_speed_mode := 0 <? Z.land b0 1 in
  b0' <- data_at 0 ;;
  let is_cadence_mode := 0 <? Z.land b0' 2 in
  ret (if is_cadence_mode then cadence else speed).

Definition get_cum_wheel_rev : M Z :=
  _check_device_connected ;;;
  m <- get_mode ;;
  if negb (Mode_eqb m speed) then ret 0 else
  b4 <- data_at 4 ;;
  b3 <- data_at 3 ;;
  b2 <- data_at 2 ;;
  b1 <- data_at 1 ;;
  ret (Z.shiftl b4 24 + Z.shiftl b3 16 + Z.shiftl b2 8 + b1).

Definition get_last_wheel_time : M Z :=
  _check_device_connected ;;;
  m <- get_mode ;;
  if negb (Mode_eqb m speed) then ret 0 else
  b6 <- data_at 6 ;;
  b5 <- data_at 5 ;;
  ret (Z.shiftl b6 8 + b5).

Definition get_cum_crank_rev : M Z :=
  _check_device_connected ;;;
  m <- get_mode ;;
  if negb (Mode_eqb m cadence) then ret 0 else
  b2 <- data_at 2 ;;
  b1 <- data_at 1 ;;
  ret (Z.shiftl b2 8 + b1).

Definition get_last_crank_time : M Z :=
  _check_device_connected ;;;
  m <- get_mode ;;
  if negb (Mode_eqb m cadence) then ret 0 else
  b4 <- data_at 4 ;;
  b3 <- data_at 3 ;;
  ret (Z.shiftl b4 8 + b3).

(** The wrap adjustment the estimators apply to a difference:
    [if d < 0: d += 65535]. *)
Definition wrap_negative (d : Z) : Z :=
  if d <? 0 then d + 65535 else d.

(** Assignment to the two wheel fields of [self]. *)
Definition set_wheel (rev time : Z) (s : BK467) : BK467 :=
  mkBK467 (client s) (data s) rev time
    (prev_cum_crank_rev s) (prev_crank_time s)
    (prev_crank_staleness s) (prev_rpm s).

(** The rate [get_wheel_rpm] computes from its two differences and the
    previous revolution count, which doubles as the mark of a first call.
    The division is reached with a nonzero integer [time_delta] only, so it
    does not raise. *)
Definition wheel_rate (delta_rotations time_delta prev_rev : Z) : float :=
  if negb (time_delta =? 0) && negb (prev_rev =? 0)
  then (1024.0 * (float_of_Z delta_rotations * 60.0) / float_of_Z time_delta)%float
  else 0.0%float.

Definition get_wheel_rpm : M float :=
  _check_device_connected ;;;
  cum_wheel_rev <- get_cum_wheel_rev ;;
  last_wheel_time <- get_last_wheel_time ;;
  prev_rev <- gets prev_combo_csc_cum_wheel_rev ;;
  prev_time <- gets prev_combo_csc_wheel_time ;;
  let delta_rotations := cum_wheel_rev - prev_rev in
  let time_delta := wrap_negative (last_wheel_time - prev_time) in
  let wheel_rpm := wheel_rate delta_rotations time_delta prev_rev in
  modify (set_wheel cum_wheel_rev last_wheel_time) ;;;
  ret wheel_rpm.

(** The linear speed [get_wheel_speed] derives from a wheel rate. *)
Definition kmph_of_rpm (rpm : float) : float :=
  let wheel_circumference := (0.622 * 3.14159265359)%float in
  let rps := (rpm / 60)%float in
  let mps := (wheel_circumference * rps)%float in
  (mps * 3.6)%float.

Definition get_wheel_speed : M (float * float) :=
  rpm <- get_wheel_rpm ;;
  ret (kmph_of_rpm rpm, rpm).

(** The inner function of [calculate_cadence]. *)
Definition check_rpm (rpm : float) : float :=
  if (rpm <=? 500)%float then rpm else 0.0%float.

(** The rate [calculate_cadence] holds before [check_rpm], with the
    staleness counter and the remembered rate after the branch taken.  On the
    first branch the divisor is not zero, [time_delta] being a nonzero
    integer, so the division does not raise. *)
Definition cadence_branch (s : BK467) (delta_rotations time_delta : Z)
  : float * Z * float :=
  if negb (time_delta =? 0) then
    let time_mins := (float_of_Z time_delta / 1024.0 / 60.0)%float in
    let rpm := (float_of_Z delta_rotations / time_mins)%float in
    (rpm, 0, rpm)
  else if prev_crank_staleness s <? 2 then
    (prev_rpm s, prev_crank_staleness s + 1, prev_rpm s)
  else
    (0.0%float, prev_crank_staleness s, prev_rpm s).

(** The rate before [check_rpm], from the fields of [self] and a sample. *)
Definition cadence_raw_rpm (s : BK467) (cum_crank_rev last_crank_time : Z) : float :=
  let delta_rotations := wrap_negative (cum_crank_rev - prev_cum_crank_rev s) in
  let time_delta := wrap_negative (last_crank_time - prev_crank_time s) in
  fst (fst (cadence_branch s delta_rotations time_delta)).

(** Assignment to the four crank fields of [self]. *)
Definition set_crank (rev time staleness : Z) (rpm : float) (s : BK467) : BK467 :=
  mkBK467 (client s) (data s)
    (prev_combo_csc_cum_wheel_rev s) (prev_combo_csc_wheel_time s)
    rev time staleness rpm.

Definition calculate_cadence (cum_crank_rev last_crank_time : Z) : M float :=
  fun s =>
    let delta_rotations := wrap_negative (cum_crank_rev - prev_cum_crank_rev s) in
    let time_delta := wrap_negative (last_crank_time - prev_crank_time s) in
    let '(rpm, staleness, good) := cadence_branch s delta_rotations time_delta in
    (inr (check_rpm rpm), set_crank cum_crank_rev last_crank_time staleness good s).

(** Successive calls of [calculate_cadence], one per sample (count, time). *)
Fixpoint feed_cadence (samples : list (Z * Z)) : M (list float) :=
  match samples with
  | [] => ret []
  | (cum_crank_rev, last_crank_time) :: rest =>
      rpm <- calculate_cadence cum_crank_rev last_crank_time ;;
      rpms <- feed_cadence rest ;;
      ret (rpm :: rpms)
  end.

Definition get_cadence : M pynum :=
  _check_device_connected ;;;
  m <- get_mode ;;
  if negb (Mode_eqb m cadence) then ret (PyInt 0) else
  cum_crank_rev <- get_cum_crank_rev ;;
  last_crank_time <- get_last_crank_time ;;
  rpm <- calculate_cadence cum_crank_rev last_crank_time ;;
  ret (PyFloat rpm).

(** ** The polling routine *)

(** The dictionary [generate_json_str] serialises. *)
Record Snapshot : Type := mkSnapshot {
  snap_device_name : string;
  snap_battery_level : Z;
  snap_mode : string;
  snap_cadence : pynum;
  snap_cum_crank_rev : Z;
  snap_last_crank_time : Z;
  snap_last_crank_time_sec : Z;
  snap_cycling_speed : float;
  snap_cycling_rpm : float;
  snap_cum_wheel_rev : Z;
  snap_last_wheel_time : Z;
  snap_last_wheel_time_sec : Z
}.

(** [int(t / 1024)] for an integer [t]; the quotient is finite, so the
    conversion is defined. *)
Definition ticks_to_sec (t : Z) : Z :=
  match int_of_float (float_of_Z t / 1024)%float with
  | Some z => z
  | None => 0
  end.

Definition generate_json_str (device_name : string) (battery_level : Z)
  : M Snapshot :=
  wheel_speed <- get_wheel_speed ;;
  mode <- get_mode ;;
  cad <- get_cadence ;;
  ccr <- get_cum_crank_rev ;;
  lct <- get_last_crank_time ;;
  lct' <- get_last_crank_time ;;
  cwr <- get_cum_wheel_rev ;;
  lwt <- get_last_wheel_time ;;
  lwt' <- get_last_wheel_time ;;
  ret (mkSnapshot device_name battery_level (mode_str mode) cad ccr lct
         (ticks_to_sec lct') (fst wheel_speed) (snd wheel_speed) cwr lwt
         (ticks_to_sec lwt')).

(** [n] turns of the loop of [update]; a raise ends the loop. *)
Fixpoint polls (device_name : string) (battery_level : Z) (n : nat)
  : M (list Snapshot) :=
  match n with
  | O => ret []
  | S k =>
      snap <- generate_json_str device_name battery_level ;;
      rest <- polls device_name battery_level k ;;
      ret (snap :: rest)
  end.

(** ** The decoder as the format describes it *)

(** The value of a little-endian byte string. *)
Fixpoint le_value (bs : list Z) : Z :=
  match bs with
  | [] => 0
  | b :: rest => b + 256 * le_value rest
  end.

(** The [n] bytes of a payload from offset [off]. *)
Definition field (off n : nat) (d : list Z) : list Z := firstn n (skipn off d).

(** The forward distance between two samples of a counter of width
    [modulus]. *)
Definition delta_mod (current previous modulus : Z) : Z :=
  (current - previous) mod modulus.


(** ** Discovery *)

(** A discovered device as [scan_async] and [main] read it; a device may
    advertise no name. *)
Record BLEDevice : Type := mkBLEDevice {
  dev_name : option string;
  dev_address : string
}.

(** [sub in s] on Python strings: [sub] starts at some position of [s]. *)
Fixpoint contains (sub s : string) : bool :=
  if prefix sub s then true
  else match s with
       | EmptyString => false
       | String _ rest => contains sub rest
       end.

(** The condition of the comprehension of [scan_async]:
    [d.name and "BK6" in d.name]. *)
Definition is_bk6 (d : BLEDevice) : bool :=
  match dev_name d with
  | None => false
  | Some n => negb (String.eqb n "") && contains "BK6" n
  end.

(** [scan_async] on the devices a discovery returned. *)
Definition scan_async (discovered : list BLEDevice) : list BLEDevice :=
  filter is_bk6 discovered.

(** The first loop of [main] over the results of successive discoveries:
    the address handed to [connect], [None] while no round has a match. *)
Fixpoint main_scan (rounds : list (list BLEDevice)) : option string :=
  match rounds with
  | [] => None
  | discovered :: later =>
      match scan_async discovered with
      | d :: _ => Some (dev_address d)
      | [] => main_scan later
      end
  end.

(** ** Byte payloads *)

(** A value a [bytearray] can hold. *)
Definition is_byte (b : Z) : Prop := 0 <= b < 256.

(** An object in cadence mode whose crank time field already holds the time
    of its payload, as after a poll of that payload. *)
Definition polled_cadence (s : BK467) : Prop :=
  fst (get_mode s) = inr cadence /\
  (5 <= List.length (data s))%nat /\
  prev_crank_time s = le_value (field 3 2 (data s)).

(** [p] on the integers [z], [z + 1], ..., [z + fuel - 1]. *)
Fixpoint holds_from (fuel : nat) (z : Z) (p : Z -> bool) : bool :=
  match fuel with
  | O => true
  | S k => p z && holds_from k (z + 1) p
  end.

(** ** Sample objects *)

(** A connected object holding the payload [d], with fresh estimators. *)
Definition connected_with (d : list Z) : BK467 :=
  speed_and_cadence_notify d (connect (mkBleakClient "BK467") init).

(** The snapshot of an object that has received nothing. *)
Definition idle_snapshot (device_name : string) (battery_level : Z) : Snapshot :=
  mkSnapshot device_name battery_level "speed" (PyInt 0) 0 0 0
    0%float 0%float 0 0 0.

(** A connected object in cadence mode whose previous crank count is the
    last value of a 16-bit counter; the payload holds the count 0 and the
    time 1024, one rotation and 1024 ticks later. *)
Definition before_rollover : BK467 :=
  set_crank 65535 0 0 0%float (connected_with [2; 0; 0; 0; 4]).

(** A connected object in speed mode whose revolution count, 5, is below
    the previous one, 10; the event time went from 0 to 1024. *)
Definition wheel_went_back : BK467 :=
  set_wheel 10 0 (connected_with [1; 5; 0; 0; 0; 0; 4]).

(** A connected object in speed mode with a payload of three bytes. *)
Definition truncated_speed : BK467 := connected_with [1; 7; 0].

(** A connected object in cadence mode whose first sample shows ten
    rotations in 1024 ticks. *)
Definition ten_per_second : BK467 := connected_with [2; 10; 0; 0; 4].

(** A connected object in speed mode ten rotations and 1024 ticks after
    its previous sample. *)
Definition ten_wheel_turns : BK467 :=
  set_wheel 10 0 (connected_with [1; 20; 0; 0; 0; 0; 4]).

(** A round of discovery: a device without a name, a watch, a device named
    after the model number, and one whose name has ["BK6"] in it. *)
Definition sample_round : list BLEDevice :=
  [ mkBLEDevice None "00:00";
    mkBLEDevice (Some "Watch"%string) "11:11";
    mkBLEDevice (Some "BK467-0042"%string) "22:22";
    mkBLEDevice (Some "COOSPO BK600"%string) "33:33" ].

(** * Properties *)

(** ** Running the methods *)

Lemma bind_ok {A B} (m : M A) (k : A -> M B) s a s' :
  m s = (inr a, s') -> bind m k s = k a s'.
Proof. intros H. unfold bind. now rewrite H. Qed.

Lemma bind_raise {A B} (m : M A) (k : A -> M B) s e s' :
  m s = (inl e, s') -> bind m k s = (inl e, s').
Proof. intros H. unfold bind. now rewrite H. Qed.

Lemma check_connected_run s c :
  client s = Some c -> _check_device_connected s = (inr tt, s).
Proof. intros H. unfold _check_device_connected. now rewrite H. Qed.

Lemma data_at_run s i b :
  nth_error (data s) i = Some b -> data_at i s = (inr b, s).
Proof. intros H. unfold data_at. now rewrite H. Qed.

Lemma data_at_raise s i :
  nth_error (data s) i = None -> data_at i s = (inl IndexError, s).
Proof. intros H. unfold data_at. now rewrite H. Qed.

(** What [get_mode] does on every object. *)
Lemma get_mode_cases s :
  get_mode s =
  match client s with
  | None => (inl ValueError, s)
  | Some _ =>
      match data s with
      | [] => (inl IndexError, s)
      | b0 :: _ => (inr (if 0 <? Z.land b0 2 then cadence else speed), s)
      end
  end.
Proof.
  unfold get_mode, bind, _check_device_connected, data_at, ret.
  destruct (client s); [ | reflexivity ].
  destruct (data s) as [|b0 rest] eqn:Hd; cbn; [ reflexivity | ].
  now rewrite Hd.
Qed.

Lemma get_mode_ok s m :
  fst (get_mode s) = inr m ->
  exists c b0 rest,
    client s = Some c /\ data s = b0 :: rest /\
    m = (if 0 <? Z.land b0 2 then cadence else speed) /\
    get_mode s = (inr m, s).
Proof.
  rewrite get_mode_cases.
  destruct (client s) as [c|] eqn:Hc; [ | discriminate ].
  destruct (data s) as [|b0 rest] eqn:Hd; [ discriminate | ].
  cbn [fst]. intros H. injection H as <-.
  exists c, b0, rest. repeat split.
Qed.

(** A getter after the two checks every getter starts with. *)
Lemma getter_run {A} (k : Mode -> M A) s m :
  fst (get_mode s) = inr m ->
  (_check_device_connected ;;; x <- get_mode ;; k x) s = k m s.
Proof.
  intros H. destruct (get_mode_ok s m H) as (c & b0 & rest & Hc & _ & _ & Hm).
  rewrite (bind_ok _ _ s tt s (check_connected_run s c Hc)).
  now rewrite (bind_ok _ _ s m s Hm).
Qed.

Lemma getter_raise {A} (k : Mode -> M A) s e :
  fst (get_mode s) = inl e ->
  (_check_device_connected ;;; x <- get_mode ;; k x) s = (inl e, s).
Proof.
  rewrite get_mode_cases. unfold bind at 1, _check_device_connected.
  destruct (client s) as [c|] eqn:Hc.
  - intros H. unfold ret, bind. rewrite get_mode_cases, Hc.
    destruct (data s); cbn in H |- *; congruence.
  - cbn. congruence.
Qed.

(** The four field getters and [get_mode] leave the object as it is. *)
Lemma get_mode_pure s : snd (get_mode s) = s.
Proof.
  rewrite get_mode_cases.
  destruct (client s); [ destruct (data s) | ]; reflexivity.
Qed.

Ltac getter_pure s :=
  let m := fresh "m" in
  let e := fresh "e" in
  let Hm := fresh "Hm" in
  destruct (fst (get_mode s)) as [e|m] eqn:Hm;
  [ rewrite (getter_raise _ s e Hm); reflexivity
  | rewrite (getter_run _ s m Hm); destruct m; cbn [Mode_eqb negb];
    unfold bind, data_at, ret;
    repeat match goal with
    | |- context [nth_error ?l ?i] => destruct (nth_error l i)
    end; reflexivity ].

Lemma get_cum_wheel_rev_pure s : snd (get_cum_wheel_rev s) = s.
Proof. unfold get_cum_wheel_rev. getter_pure s. Qed.

Lemma get_last_wheel_time_pure s : snd (get_last_wheel_time s) = s.
Proof. unfold get_last_wheel_time. getter_pure s. Qed.

Lemma get_cum_crank_rev_pure s : snd (get_cum_crank_rev s) = s.
Proof. unfold get_cum_crank_rev. getter_pure s. Qed.

Lemma get_last_crank_time_pure s : snd (get_last_crank_time s) = s.
Proof. unfold get_last_crank_time. getter_pure s. Qed.

Lemma run_eq {A} (m : M A) s r :
  snd (m s) = s -> fst (m s) = r -> m s = (r, s).
Proof. destruct (m s) as [x t]. cbn. congruence. Qed.

(** A getter that succeeds was called on a connected object. *)
Lemma get_cum_wheel_rev_connected s v :
  fst (get_cum_wheel_rev s) = inr v -> exists c, client s = Some c.
Proof.
  unfold get_cum_wheel_rev, bind at 1, _check_device_connected.
  destruct (client s) as [c|]; [ eauto | discriminate ].
Qed.

(** The getters in a mode that is not theirs. *)
Lemma wheel_getters_in_cadence s :
  fst (get_mode s) = inr cadence ->
  get_cum_wheel_rev s = (inr 0, s) /\ get_last_wheel_time s = (inr 0, s).
Proof.
  intros H. unfold get_cum_wheel_rev, get_last_wheel_time.
  now rewrite !(getter_run _ s cadence H).
Qed.

Lemma crank_getters_in_speed s :
  fst (get_mode s) = inr speed ->
  get_cum_crank_rev s = (inr 0, s) /\ get_last_crank_time s = (inr 0, s).
Proof.
  intros H. unfold get_cum_crank_rev, get_last_crank_time.
  now rewrite !(getter_run _ s speed H).
Qed.

(** [get_wheel_rpm] in terms of what its two getters return. *)
Lemma get_wheel_rpm_run s cum t :
  fst (get_cum_wheel_rev s) = inr cum ->
  fst (get_last_wheel_time s) = inr t ->
  get_wheel_rpm s =
  (inr (wheel_rate (cum - prev_combo_csc_cum_wheel_rev s)
          (wrap_negative (t - prev_combo_csc_wheel_time s))
          (prev_combo_csc_cum_wheel_rev s)),
   set_wheel cum t s).
Proof.
  intros Hc Ht.
  destruct (get_cum_wheel_rev_connected s cum Hc) as [c Hcl].
  unfold get_wheel_rpm.
  rewrite (bind_ok _ _ s tt s (check_connected_run s c Hcl)).
  rewrite (bind_ok _ _ s cum s (run_eq _ s _ (get_cum_wheel_rev_pure s) Hc)).
  rewrite (bind_ok _ _ s t s (run_eq _ s _ (get_last_wheel_time_pure s) Ht)).
  reflexivity.
Qed.

(** Two floats that compare differently are different. *)
Lemma float_neq_by_ltb (x y z : float) :
  (x <? z)%float = true -> (y <? z)%float = false -> x <> y.
Proof. intros Hx Hy E. rewrite E in Hx. congruence. Qed.

Lemma inr_float_inj {E : Type} (x y : float) : @inr E float x = inr y -> x = y.
Proof.
  intros H.
  exact (f_equal (fun r => match r with inr f => f | inl _ => x end) H).
Qed.

(** ** The wrap adjustment *)

(** How the adjustment compares with the forward distance of two samples of
    a 16-bit counter: equal while the counter has not rolled over, one less
    after a rollover. *)
Lemma wrap_negative_spec current previous :
  0 <= previous < 65536 -> 0 <= current < 65536 ->
  wrap_negative (current - previous) =
  if current <? previous
  then delta_mod current previous 65536 - 1
  else delta_mod current previous 65536.
Proof.
  intros Hp Hc. unfold wrap_negative, delta_mod.
  destruct (Z.ltb_spec current previous) as [Hlt|Hge].
  - replace (current - previous <? 0) with true
      by (symmetry; apply Z.ltb_lt; lia).
    rewrite <- (Z.mod_unique (current - previous) 65536 (-1)
                  (current - previous + 65536)); lia.
  - replace (current - previous <? 0) with false
      by (symmetry; apply Z.ltb_ge; lia).
    rewrite Z.mod_small; lia.
Qed.

(** C1.  The specification asks for the forward distance modulo 65536, by which a
    counter going from 65535 to 0 has advanced by 1.  The code adds 65535 to
    a negative difference and finds 0 on that step.  On an object whose
    previous crank count is 65535, a sample with the count 0 taken 1024
    ticks later is one rotation in one second, a cadence of 60;
    [get_cadence] returns 0.0. *)
Theorem wrap_negative_rollover :
  wrap_negative (0 - 65535) = 0 /\
  delta_mod 0 65535 65536 = 1 /\
  fst (get_cum_crank_rev before_rollover) = inr 0 /\
  fst (get_last_crank_time before_rollover) = inr 1024 /\
  prev_cum_crank_rev before_rollover = 65535 /\
  prev_crank_time before_rollover = 0 /\
  fst (get_cadence before_rollover) = inr (PyFloat 0%float) /\
  (float_of_Z (delta_mod 0 65535 65536) /
   (float_of_Z (delta_mod 1024 0 65536) / 1024 / 60))%float = 60%float.
Proof. repeat split. Qed.

(** ** Mode detection *)

Lemma land_2_testbit (b : Z) : (0 <? Z.land b 2) = Z.testbit b 1.
Proof.
  assert (E : Z.land b 2 = if Z.testbit b 1 then 2 else 0).
  { apply Z.bits_inj'. intros n Hn. rewrite Z.land_spec.
    change 2 with (2 ^ 1) at 1. rewrite Z.pow2_bits_eqb by lia.
    destruct (Z.eqb_spec 1 n) as [<-|Hne].
    - rewrite andb_true_r. destruct (Z.testbit b 1); reflexivity.
    - rewrite andb_false_r. destruct (Z.testbit b 1).
      + change 2 with (2 ^ 1). rewrite Z.pow2_bits_eqb by lia.
        symmetry. now apply Z.eqb_neq.
      + now rewrite Z.bits_0. }
  rewrite E. destruct (Z.testbit b 1); reflexivity.
Qed.

(** C2 as specified fails: in the flags byte [0x03] bit 0 is set, and
    the mode detected is not speed. *)
Lemma get_mode_both_bits_counterexample :
  Z.testbit 3 0 = true /\
  fst (get_mode (connected_with [3; 0; 0; 0; 0; 0; 0])) = inr cadence /\
  fst (get_mode (connected_with [3; 0; 0; 0; 0; 0; 0])) <> inr speed.
Proof. repeat split; try reflexivity. discriminate. Qed.

(** C2, amended.  On a connected object with a payload of at least one byte,
    [get_mode] returns cadence when bit 1 of the flags byte is set, whatever
    bit 0 is, and speed otherwise, also when neither bit is set; it changes
    nothing. *)
Theorem get_mode_bit1 s c flags rest :
  client s = Some c ->
  data s = flags :: rest ->
  get_mode s = (inr (if Z.testbit flags 1 then cadence else speed), s).
Proof.
  intros Hc Hd. rewrite get_mode_cases, Hc, Hd.
  now rewrite land_2_testbit.
Qed.

Lemma get_mode_bit1_witness :
  fst (get_mode (connected_with [1; 0; 0; 0; 0; 0; 0])) = inr speed /\
  fst (get_mode (connected_with [2; 0; 0; 0; 0])) = inr cadence /\
  fst (get_mode (connected_with [0; 0; 0; 0; 0; 0; 0])) = inr speed /\
  fst (get_mode (connected_with [3; 0; 0; 0; 0; 0; 0])) = inr cadence.
Proof.
  split; [ | split; [ | split ] ].
  - rewrite (get_mode_bit1 _ (mkBleakClient "BK467") 1 [0; 0; 0; 0; 0; 0]);
      reflexivity.
  - rewrite (get_mode_bit1 _ (mkBleakClient "BK467") 2 [0; 0; 0; 0]);
      reflexivity.
  - rewrite (get_mode_bit1 _ (mkBleakClient "BK467") 0 [0; 0; 0; 0; 0; 0]);
      reflexivity.
  - rewrite (get_mode_bit1 _ (mkBleakClient "BK467") 3 [0; 0; 0; 0; 0; 0]);
      reflexivity.
Defined.

(** ** The wheel rotation difference *)

(** C3 as specified fails: the difference of the counts is negative,
    and the rate returned is the one of that difference, not the one of the
    difference plus 65536. *)
Lemma wheel_delta_wrap_counterexample :
  fst (get_cum_wheel_rev wheel_went_back) = inr 5 /\
  fst (get_last_wheel_time wheel_went_back) = inr 1024 /\
  5 - prev_combo_csc_cum_wheel_rev wheel_went_back < 0 /\
  fst (get_wheel_rpm wheel_went_back) = inr (-300)%float /\
  fst (get_wheel_rpm wheel_went_back) <>
  inr (wheel_rate (5 - prev_combo_csc_cum_wheel_rev wheel_went_back + 65536)
         (wrap_negative (1024 - prev_combo_csc_wheel_time wheel_went_back))
         (prev_combo_csc_cum_wheel_rev wheel_went_back)).
Proof.
  repeat split; try reflexivity.
  intros H. vm_compute in H. apply inr_float_inj in H.
  revert H. apply (float_neq_by_ltb _ _ 0%float); reflexivity.
Qed.

(** C3, amended.  When the difference between the decoded revolution count
    and the previous one is negative, [get_wheel_rpm] computes the rate from
    that difference as it is: no modulus is added to it.  Where a rate is
    computed (nonzero time difference and previous count), it is
    [1024.0 * ((cum - prev) * 60.0) / time_delta].  The wheel fields are
    then set to the decoded values. *)
Theorem wheel_delta_not_wrapped s cum t :
  fst (get_cum_wheel_rev s) = inr cum ->
  fst (get_last_wheel_time s) = inr t ->
  cum - prev_combo_csc_cum_wheel_rev s < 0 ->
  let prev := prev_combo_csc_cum_wheel_rev s in
  let time_delta := wrap_negative (t - prev_combo_csc_wheel_time s) in
  get_wheel_rpm s =
    (inr (wheel_rate (cum - prev) time_delta prev), set_wheel cum t s) /\
  (time_delta <> 0 -> prev <> 0 ->
   fst (get_wheel_rpm s) =
   inr (1024 * (float_of_Z (cum - prev) * 60) / float_of_Z time_delta)%float).
Proof.
  intros Hc Ht _ prev time_delta.
  pose proof (get_wheel_rpm_run s cum t Hc Ht) as Hrun.
  fold prev time_delta in Hrun. split; [ exact Hrun | ].
  intros Htd Hp. rewrite Hrun. cbn [fst]. unfold wheel_rate.
  apply Z.eqb_neq in Htd, Hp. now rewrite Htd, Hp.
Qed.

Lemma wheel_delta_not_wrapped_witness :
  get_wheel_rpm wheel_went_back =
    (inr (-300)%float, set_wheel 5 1024 wheel_went_back) /\
  fst (get_wheel_rpm wheel_went_back) =
    inr (1024 * (float_of_Z (5 - 10) * 60) / float_of_Z 1024)%float.
Proof.
  destruct (wheel_delta_not_wrapped wheel_went_back 5 1024 eq_refl eq_refl)
    as [Hrun Hrate]; [ reflexivity | ].
  split; [ exact Hrun | ].
  apply Hrate; discriminate.
Defined.

(** ** Payloads shorter than the fields read *)

(** The getters read [client] and [data] only. *)
Lemma get_mode_set_wheel a b s : fst (get_mode (set_wheel a b s)) = fst (get_mode s).
Proof.
  rewrite !get_mode_cases. cbn [set_wheel client data].
  destruct (client s); [ destruct (data s) | ]; reflexivity.
Qed.

Lemma nth_error_short (d : list Z) (i : nat) :
  (List.length d <= i)%nat -> nth_error d i = None.
Proof. apply nth_error_None. Qed.

Lemma get_last_wheel_time_short s :
  fst (get_mode s) = inr speed -> (List.length (data s) < 7)%nat ->
  get_last_wheel_time s = (inl IndexError, s).
Proof.
  intros Hm Hl. unfold get_last_wheel_time.
  rewrite (getter_run _ s speed Hm). cbn [Mode_eqb negb].
  apply bind_raise, data_at_raise, nth_error_short. lia.
Qed.

Lemma get_cum_wheel_rev_short s :
  fst (get_mode s) = inr speed -> (List.length (data s) < 5)%nat ->
  get_cum_wheel_rev s = (inl IndexError, s).
Proof.
  intros Hm Hl. unfold get_cum_wheel_rev.
  rewrite (getter_run _ s speed Hm). cbn [Mode_eqb negb].
  apply bind_raise, data_at_raise, nth_error_short. lia.
Qed.

Lemma get_last_crank_time_short s :
  fst (get_mode s) = inr cadence -> (List.length (data s) < 5)%nat ->
  get_last_crank_time s = (inl IndexError, s).
Proof.
  intros Hm Hl. unfold get_last_crank_time.
  rewrite (getter_run _ s cadence Hm). cbn [Mode_eqb negb].
  apply bind_raise, data_at_raise, nth_error_short. lia.
Qed.

Lemma get_cum_crank_rev_short s :
  fst (get_mode s) = inr cadence -> (List.length (data s) < 3)%nat ->
  get_cum_crank_rev s = (inl IndexError, s).
Proof.
  intros Hm Hl. unfold get_cum_crank_rev.
  rewrite (getter_run _ s cadence Hm). cbn [Mode_eqb negb].
  apply bind_raise, data_at_raise, nth_error_short. lia.
Qed.

(** In its own mode a count getter returns a value or raises [IndexError]. *)
Lemma get_cum_wheel_rev_outcome s :
  fst (get_mode s) = inr speed ->
  get_cum_wheel_rev s = (inl IndexError, s) \/
  exists v, get_cum_wheel_rev s = (inr v, s).
Proof.
  intros Hm. unfold get_cum_wheel_rev.
  rewrite (getter_run _ s speed Hm). cbn [Mode_eqb negb].
  unfold bind, data_at, ret.
  repeat match goal with
  | |- context [nth_error ?l ?i] => destruct (nth_error l i)
  end; eauto.
Qed.

Lemma get_cum_crank_rev_outcome s :
  fst (get_mode s) = inr cadence ->
  get_cum_crank_rev s = (inl IndexError, s) \/
  exists v, get_cum_crank_rev s = (inr v, s).
Proof.
  intros Hm. unfold get_cum_crank_rev.
  rewrite (getter_run _ s cadence Hm). cbn [Mode_eqb negb].
  unfold bind, data_at, ret.
  repeat match goal with
  | |- context [nth_error ?l ?i] => destruct (nth_error l i)
  end; eauto.
Qed.

Lemma get_wheel_rpm_short s :
  fst (get_mode s) = inr speed -> (List.length (data s) < 7)%nat ->
  get_wheel_rpm s = (inl IndexError, s).
Proof.
  intros Hm Hl.
  destruct (get_mode_ok s speed Hm) as (c & _ & _ & Hc & _).
  unfold get_wheel_rpm.
  rewrite (bind_ok _ _ s tt s (check_connected_run s c Hc)).
  destruct (get_cum_wheel_rev_outcome s Hm) as [Hr|[v Hr]].
  - now apply bind_raise.
  - rewrite (bind_ok _ _ s v s Hr).
    now apply bind_raise, get_last_wheel_time_short.
Qed.

Lemma get_cadence_short s :
  fst (get_mode s) = inr cadence -> (List.length (data s) < 5)%nat ->
  get_cadence s = (inl IndexError, s).
Proof.
  intros Hm Hl. unfold get_cadence.
  rewrite (getter_run _ s cadence Hm). cbn [Mode_eqb negb].
  destruct (get_cum_crank_rev_outcome s Hm) as [Hr|[v Hr]].
  - now apply bind_raise.
  - rewrite (bind_ok _ _ s v s Hr).
    now apply bind_raise, get_last_crank_time_short.
Qed.

(** [get_wheel_rpm] away from speed mode: the decoded fields are zeros, and
    the wheel fields are set to them. *)
Lemma get_wheel_rpm_in_cadence s :
  fst (get_mode s) = inr cadence ->
  get_wheel_rpm s =
  (inr (wheel_rate (0 - prev_combo_csc_cum_wheel_rev s)
          (wrap_negative (0 - prev_combo_csc_wheel_time s))
          (prev_combo_csc_cum_wheel_rev s)),
   set_wheel 0 0 s).
Proof.
  intros Hm. destruct (wheel_getters_in_cadence s Hm) as [Hc Ht].
  apply get_wheel_rpm_run; [ now rewrite Hc | now rewrite Ht ].
Qed.

Lemma generate_json_str_short s m name batt :
  fst (get_mode s) = inr m ->
  (List.length (data s) < match m with speed => 7 | cadence => 5 end)%nat ->
  fst (generate_json_str name batt s) = inl IndexError.
Proof.
  intros Hm Hl. unfold generate_json_str, get_wheel_speed.
  destruct m.
  - unfold bind at 1. unfold bind at 1.
    now rewrite (get_wheel_rpm_short s Hm Hl).
  - unfold bind at 1. unfold bind at 1.
    rewrite (get_wheel_rpm_in_cadence s Hm). cbn [ret].
    set (s' := set_wheel 0 0 s).
    assert (Hm' : fst (get_mode s') = inr cadence)
      by (unfold s'; now rewrite get_mode_set_wheel).
    destruct (get_mode_ok s' cadence Hm') as (_ & _ & _ & _ & _ & _ & Hrun).
    rewrite (bind_ok _ _ s' cadence s' Hrun).
    now rewrite (bind_raise _ _ s' IndexError s' (get_cadence_short s' Hm' Hl)).
Qed.

(** C4 as specified fails: on a payload of three bytes in speed mode
    the revolution count is not zero but an [IndexError], and the poll ends
    with it. *)
Lemma short_payload_counterexample :
  fst (get_mode truncated_speed) = inr speed /\
  (List.length (data truncated_speed) < 7)%nat /\
  fst (get_cum_wheel_rev truncated_speed) = inl IndexError /\
  fst (get_cum_wheel_rev truncated_speed) <> inr 0 /\
  fst (generate_json_str "BK467" 100 truncated_speed) = inl IndexError.
Proof. repeat split; try reflexivity; try (cbn; lia). discriminate. Qed.

(** C4, amended.  No byte beyond the payload is read: on a connected object
    whose payload is shorter than its mode needs (seven bytes in speed mode,
    five in cadence mode), the getter of the event time raises [IndexError],
    so does the getter of the count when the payload is shorter than five,
    respectively three, bytes, and the poll ends with that exception instead
    of a snapshot. *)
Theorem short_payload_raises s m name batt :
  fst (get_mode s) = inr m ->
  (List.length (data s) < match m with speed => 7 | cadence => 5 end)%nat ->
  fst (match m with
       | speed => get_last_wheel_time s
       | cadence => get_last_crank_time s
       end) = inl IndexError /\
  ((List.length (data s) < match m with speed => 5 | cadence => 3 end)%nat ->
   fst (match m with
        | speed => get_cum_wheel_rev s
        | cadence => get_cum_crank_rev s
        end) = inl IndexError) /\
  fst (generate_json_str name batt s) = inl IndexError.
Proof.
  intros Hm Hl. split; [ | split ].
  - destruct m.
    + now rewrite get_last_wheel_time_short.
    + now rewrite get_last_crank_time_short.
  - intros Hl'. destruct m.
    + now rewrite get_cum_wheel_rev_short.
    + now rewrite get_cum_crank_rev_short.
  - now apply (generate_json_str_short s m).
Qed.

Lemma short_payload_raises_witness :
  fst (get_last_crank_time (connected_with [2; 1; 0; 0])) = inl IndexError /\
  fst (generate_json_str "BK467" 100 (connected_with [2; 1; 0; 0])) = inl IndexError.
Proof.
  assert (Hm : fst (get_mode (connected_with [2; 1; 0; 0])) = inr cadence)
    by reflexivity.
  assert (Hl : (List.length (data (connected_with [2; 1; 0; 0]%Z)) < 5)%nat)
    by (cbn; lia).
  destruct (short_payload_raises _ cadence "BK467" 100 Hm Hl) as (H1 & _ & H3).
  exact (conj H1 H3).
Defined.

(** ** Field extraction *)

Lemma le_value_2 b0 b1 : Z.shiftl b1 8 + b0 = le_value [b0; b1].
Proof. cbn [le_value]. rewrite Z.shiftl_mul_pow2 by lia. lia. Qed.

Lemma le_value_4 b0 b1 b2 b3 :
  Z.shiftl b3 24 + Z.shiftl b2 16 + Z.shiftl b1 8 + b0 = le_value [b0; b1; b2; b3].
Proof. cbn [le_value]. rewrite !Z.shiftl_mul_pow2 by lia. lia. Qed.

(** C8.  On a connected object whose payload is long enough for the detected
    mode, the getters of that mode return the little-endian values of their
    bytes (count at bytes 1..4 and time at bytes 5..6 in speed mode, count
    at bytes 1..2 and time at bytes 3..4 in cadence mode), the getters of
    the other mode return zero, and none of them raises or changes the
    object. *)
Theorem decoder_fields s m :
  fst (get_mode s) = inr m ->
  (match m with speed => 7 | cadence => 5 end <= List.length (data s))%nat ->
  match m with
  | speed =>
      get_cum_wheel_rev s = (inr (le_value (field 1 4 (data s))), s) /\
      get_last_wheel_time s = (inr (le_value (field 5 2 (data s))), s) /\
      get_cum_crank_rev s = (inr 0, s) /\
      get_last_crank_time s = (inr 0, s)
  | cadence =>
      get_cum_crank_rev s = (inr (le_value (field 1 2 (data s))), s) /\
      get_last_crank_time s = (inr (le_value (field 3 2 (data s))), s) /\
      get_cum_wheel_rev s = (inr 0, s) /\
      get_last_wheel_time s = (inr 0, s)
  end.
Proof.
  intros Hm Hl. destruct m.
  - destruct (crank_getters_in_speed s Hm) as [Hc Ht].
    destruct (data s) as [|b0 [|b1 [|b2 [|b3 [|b4 [|b5 [|b6 rest]]]]]]] eqn:Hd;
      cbn [List.length] in Hl; try lia.
    repeat split; try assumption.
    + unfold get_cum_wheel_rev. rewrite (getter_run _ s speed Hm).
      cbn [Mode_eqb negb]. unfold bind, data_at, ret.
      repeat (rewrite Hd; cbn [nth_error]). cbn [field skipn firstn]. now rewrite le_value_4.
    + unfold get_last_wheel_time. rewrite (getter_run _ s speed Hm).
      cbn [Mode_eqb negb]. unfold bind, data_at, ret.
      repeat (rewrite Hd; cbn [nth_error]). cbn [field skipn firstn]. now rewrite le_value_2.
  - destruct (wheel_getters_in_cadence s Hm) as [Hc Ht].
    destruct (data s) as [|b0 [|b1 [|b2 [|b3 [|b4 rest]]]]] eqn:Hd;
      cbn [List.length] in Hl; try lia.
    repeat split; try assumption.
    + unfold get_cum_crank_rev. rewrite (getter_run _ s cadence Hm).
      cbn [Mode_eqb negb]. unfold bind, data_at, ret.
      repeat (rewrite Hd; cbn [nth_error]). cbn [field skipn firstn]. now rewrite le_value_2.
    + unfold get_last_crank_time. rewrite (getter_run _ s cadence Hm).
      cbn [Mode_eqb negb]. unfold bind, data_at, ret.
      repeat (rewrite Hd; cbn [nth_error]). cbn [field skipn firstn]. now rewrite le_value_2.
Qed.

Lemma decoder_fields_witness :
  get_cum_wheel_rev (connected_with [1; 120; 86; 52; 18; 205; 171]) =
    (inr 305419896, connected_with [1; 120; 86; 52; 18; 205; 171]) /\
  get_last_wheel_time (connected_with [1; 120; 86; 52; 18; 205; 171]) =
    (inr 43981, connected_with [1; 120; 86; 52; 18; 205; 171]) /\
  get_cum_crank_rev (connected_with [1; 120; 86; 52; 18; 205; 171]) =
    (inr 0, connected_with [1; 120; 86; 52; 18; 205; 171]) /\
  get_last_crank_time (connected_with [1; 120; 86; 52; 18; 205; 171]) =
    (inr 0, connected_with [1; 120; 86; 52; 18; 205; 171]).
Proof.
  assert (Hm : fst (get_mode (connected_with [1; 120; 86; 52; 18; 205; 171]))
               = inr speed) by reflexivity.
  assert (Hl : (7 <= List.length
                   (data (connected_with [1; 120; 86; 52; 18; 205; 171]%Z)))%nat)
    by (cbn; lia).
  exact (decoder_fields _ speed Hm Hl).
Defined.

(** ** The cadence getter away from cadence mode *)

Lemma get_cadence_in_speed s :
  fst (get_mode s) = inr speed -> get_cadence s = (inr (PyInt 0), s).
Proof.
  intros Hm. unfold get_cadence. now rewrite (getter_run _ s speed Hm).
Qed.

(** C10.  When the detected mode is not cadence, [get_cadence] returns the
    integer 0 and leaves the object, hence the four cadence fields, as it
    was.  [get_wheel_rpm] has no such guard: called in cadence mode it sets
    both wheel fields to zero, the values decoded there. *)
Theorem get_cadence_frame s s' :
  fst (get_mode s) = inr speed ->
  fst (get_mode s') = inr cadence ->
  (get_cadence s = (inr (PyInt 0), s) /\
   prev_cum_crank_rev (snd (get_cadence s)) = prev_cum_crank_rev s /\
   prev_crank_time (snd (get_cadence s)) = prev_crank_time s /\
   prev_crank_staleness (snd (get_cadence s)) = prev_crank_staleness s /\
   prev_rpm (snd (get_cadence s)) = prev_rpm s) /\
  (snd (get_wheel_rpm s') = set_wheel 0 0 s' /\
   prev_combo_csc_cum_wheel_rev (snd (get_wheel_rpm s')) = 0 /\
   prev_combo_csc_wheel_time (snd (get_wheel_rpm s')) = 0).
Proof.
  intros Hm Hm'. split.
  - rewrite (get_cadence_in_speed s Hm). repeat split.
  - rewrite (get_wheel_rpm_in_cadence s' Hm'). repeat split.
Qed.

Lemma get_cadence_frame_witness :
  get_cadence (set_wheel 7 9 (connected_with [1; 5; 0; 0; 0; 0; 4])) =
    (inr (PyInt 0), set_wheel 7 9 (connected_with [1; 5; 0; 0; 0; 0; 4])) /\
  prev_combo_csc_cum_wheel_rev
    (snd (get_wheel_rpm (set_wheel 7 9 (connected_with [2; 1; 0; 0; 4])))) = 0.
Proof.
  destruct (get_cadence_frame
              (set_wheel 7 9 (connected_with [1; 5; 0; 0; 0; 0; 4]))
              (set_wheel 7 9 (connected_with [2; 1; 0; 0; 4]))
              eq_refl eq_refl) as [[H _] [_ [H' _]]].
  exact (conj H H').
Defined.

(** ** Polling before any notification *)

Lemma generate_json_str_idle name batt c :
  generate_json_str name batt (connect c init) =
  (inr (idle_snapshot name batt), connect c init).
Proof. reflexivity. Qed.

(** C9.  On a connected object that has received no notification, any
    number of polls raises nothing, every snapshot reports a wheel rate of
    0.0, the cadence 0 and all counters zero, and the object, with its
    estimator fields, is after the polls what it was before them. *)
Theorem polls_idle name batt c n :
  polls name batt n (connect c init) =
    (inr (repeat (idle_snapshot name batt) n), connect c init) /\
  snap_cycling_rpm (idle_snapshot name batt) = 0%float /\
  snap_cadence (idle_snapshot name batt) = PyInt 0 /\
  prev_combo_csc_cum_wheel_rev (connect c init) = 0 /\
  prev_cum_crank_rev (connect c init) = 0 /\
  prev_crank_staleness (connect c init) = 0.
Proof.
  split; [ | repeat split ].
  induction n as [|n IH].
  - reflexivity.
  - cbn [polls repeat].
    rewrite (bind_ok _ _ _ _ _ (generate_json_str_idle name batt c)).
    now rewrite (bind_ok _ _ _ _ _ IH).
Qed.

(** ** Float comparison and product *)

Lemma SFcompare_Lt_swap x y : SFcompare x y = Some Lt -> SFcompare y x = Some Gt.
Proof.
  destruct x as [sx|sx| |sx mx ex], y as [sy|sy| |sy my ey]; cbn;
    try discriminate;
    try (destruct sx; try discriminate; reflexivity);
    try (destruct sy; try discriminate; reflexivity);
    try (destruct sx, sy; try discriminate; reflexivity).
  destruct sx, sy; try discriminate; try reflexivity;
    rewrite (Z.compare_antisym ex ey);
    change (Pos.compare_cont Eq my mx) with (Pos.compare my mx);
    change (Pos.compare_cont Eq mx my) with (Pos.compare mx my);
    rewrite (Pos.compare_antisym mx my);
    destruct (ex ?= ey); cbn; try discriminate; try reflexivity;
    destruct (mx ?= my)%positive; cbn; try discriminate; reflexivity.
Qed.

Lemma ltb_leb_false (x y : float) :
  (x <? y)%float = true -> (y <=? x)%float = false.
Proof.
  rewrite ltb_spec, leb_spec. unfold SFltb, SFleb.
  destruct (SFcompare (Prim2SF x) (Prim2SF y)) as [[]|] eqn:E; try discriminate.
  intros _. now rewrite (SFcompare_Lt_swap _ _ E).
Qed.

Lemma float_mul_comm (x y : float) : (x * y = y * x)%float.
Proof.
  apply Prim2SF_inj. rewrite !mul_spec. unfold SF64mul, SFmul.
  destruct (Prim2SF x) as [sx|sx| |sx mx ex], (Prim2SF y) as [sy|sy| |sy my ey];
    try reflexivity; try (now rewrite xorb_comm).
  now rewrite xorb_comm, Pos.mul_comm, Z.add_comm.
Qed.

(** ** The cadence estimator *)

(** The three branches of [calculate_cadence]. *)
Lemma calculate_cadence_fresh s cum t :
  wrap_negative (t - prev_crank_time s) <> 0 ->
  let rpm :=
    (float_of_Z (wrap_negative (cum - prev_cum_crank_rev s)) /
     (float_of_Z (wrap_negative (t - prev_crank_time s)) / 1024 / 60))%float in
  calculate_cadence cum t s = (inr (check_rpm rpm), set_crank cum t 0 rpm s).
Proof.
  intros Hne. unfold calculate_cadence, cadence_branch.
  apply Z.eqb_neq in Hne. now rewrite Hne.
Qed.

Lemma calculate_cadence_stale s cum t :
  wrap_negative (t - prev_crank_time s) = 0 ->
  prev_crank_staleness s < 2 ->
  calculate_cadence cum t s =
  (inr (check_rpm (prev_rpm s)),
   set_crank cum t (prev_crank_staleness s + 1) (prev_rpm s) s).
Proof.
  intros H0 Hs. unfold calculate_cadence, cadence_branch. rewrite H0.
  apply Z.ltb_lt in Hs. now rewrite Hs.
Qed.

Lemma calculate_cadence_stopped s cum t :
  wrap_negative (t - prev_crank_time s) = 0 ->
  2 <= prev_crank_staleness s ->
  calculate_cadence cum t s =
  (inr 0%float, set_crank cum t (prev_crank_staleness s) (prev_rpm s) s).
Proof.
  intros H0 Hs. unfold calculate_cadence, cadence_branch. rewrite H0.
  apply Z.ltb_ge in Hs. now rewrite Hs.
Qed.

Lemma calculate_cadence_check s cum t :
  fst (calculate_cadence cum t s) = inr (check_rpm (cadence_raw_rpm s cum t)).
Proof.
  unfold calculate_cadence, cadence_raw_rpm.
  now destruct (cadence_branch s _ _) as [[rpm st] good].
Qed.

Lemma feed_cadence_nil s : feed_cadence [] s = (inr [], s).
Proof. reflexivity. Qed.

Lemma feed_cadence_cons cum t rest s rpm s' rpms s'' :
  calculate_cadence cum t s = (inr rpm, s') ->
  feed_cadence rest s' = (inr rpms, s'') ->
  feed_cadence ((cum, t) :: rest) s = (inr (rpm :: rpms), s'').
Proof.
  intros H1 H2. cbn [feed_cadence].
  rewrite (bind_ok _ _ _ _ _ H1). now rewrite (bind_ok _ _ _ _ _ H2).
Qed.

(** C5.  From any state of the estimator, a sample one rotation and 1024
    ticks after the previous one, followed by three samples whose time
    difference is zero, gives the rates 60, 60, 60 and 0; the staleness
    counter is 0 after the first sample, 1 and 2 after the two that reuse
    the rate, and still 2 after the one reported as 0. *)
Theorem cadence_staleness_sequence s c1 t1 c2 t2 c3 t3 c4 t4 :
  wrap_negative (c1 - prev_cum_crank_rev s) = 1 ->
  wrap_negative (t1 - prev_crank_time s) = 1024 ->
  wrap_negative (t2 - t1) = 0 ->
  wrap_negative (t3 - t2) = 0 ->
  wrap_negative (t4 - t3) = 0 ->
  feed_cadence [(c1, t1); (c2, t2); (c3, t3); (c4, t4)] s =
    (inr [60; 60; 60; 0]%float, set_crank c4 t4 2 60%float s) /\
  prev_crank_staleness (snd (feed_cadence [(c1, t1)] s)) = 0 /\
  prev_crank_staleness (snd (feed_cadence [(c1, t1); (c2, t2)] s)) = 1 /\
  prev_crank_staleness (snd (feed_cadence [(c1, t1); (c2, t2); (c3, t3)] s)) = 2.
Proof.
  intros Hr Ht H2 H3 H4.
  assert (E1 : calculate_cadence c1 t1 s =
               (inr 60%float, set_crank c1 t1 0 60%float s)).
  { rewrite calculate_cadence_fresh by (rewrite Ht; discriminate).
    rewrite Hr, Ht. reflexivity. }
  set (s1 := set_crank c1 t1 0 60%float s) in *.
  assert (E2 : calculate_cadence c2 t2 s1 =
               (inr 60%float, set_crank c2 t2 1 60%float s)).
  { rewrite calculate_cadence_stale; [ reflexivity | exact H2 | cbn; lia ]. }
  set (s2 := set_crank c2 t2 1 60%float s) in *.
  assert (E3 : calculate_cadence c3 t3 s2 =
               (inr 60%float, set_crank c3 t3 2 60%float s)).
  { rewrite calculate_cadence_stale; [ reflexivity | exact H3 | cbn; lia ]. }
  set (s3 := set_crank c3 t3 2 60%float s) in *.
  assert (E4 : calculate_cadence c4 t4 s3 =
               (inr 0%float, set_crank c4 t4 2 60%float s)).
  { rewrite calculate_cadence_stopped; [ reflexivity | exact H4 | cbn; lia ]. }
  split; [ | split; [ | split ] ].
  - rewrite (feed_cadence_cons _ _ _ _ _ _ _ _ E1
               (feed_cadence_cons _ _ _ _ _ _ _ _ E2
                  (feed_cadence_cons _ _ _ _ _ _ _ _ E3
                     (feed_cadence_cons _ _ _ _ _ _ _ _ E4 (feed_cadence_nil _))))).
    reflexivity.
  - now rewrite (feed_cadence_cons _ _ _ _ _ _ _ _ E1 (feed_cadence_nil _)).
  - now rewrite (feed_cadence_cons _ _ _ _ _ _ _ _ E1
                   (feed_cadence_cons _ _ _ _ _ _ _ _ E2 (feed_cadence_nil _))).
  - now rewrite (feed_cadence_cons _ _ _ _ _ _ _ _ E1
                   (feed_cadence_cons _ _ _ _ _ _ _ _ E2
                      (feed_cadence_cons _ _ _ _ _ _ _ _ E3 (feed_cadence_nil _)))).
Qed.

Lemma cadence_staleness_sequence_witness :
  feed_cadence [(1, 1024); (1, 1024); (1, 1024); (1, 1024)]
    (connected_with [2; 1; 0; 0; 4]) =
  (inr [60; 60; 60; 0]%float,
   set_crank 1 1024 2 60%float (connected_with [2; 1; 0; 0; 4])).
Proof.
  exact (proj1 (cadence_staleness_sequence (connected_with [2; 1; 0; 0; 4])
                  1 1024 1 1024 1 1024 1 1024
                  eq_refl eq_refl eq_refl eq_refl eq_refl)).
Defined.

(** C7.  [calculate_cadence] returns its rate through [check_rpm], which
    turns every rate above 500 into 0 and returns every rate of at most 500
    as it is; 600 becomes 0. *)
Theorem check_rpm_clamps (rpm : float) s cum t :
  ((500 <? rpm)%float = true -> check_rpm rpm = 0%float) /\
  ((rpm <=? 500)%float = true -> check_rpm rpm = rpm) /\
  fst (calculate_cadence cum t s) = inr (check_rpm (cadence_raw_rpm s cum t)) /\
  check_rpm 600 = 0%float.
Proof.
  repeat split.
  - intros H. unfold check_rpm. now rewrite (ltb_leb_false _ _ H).
  - intros H. unfold check_rpm. now rewrite H.
  - apply calculate_cadence_check.
Qed.

Lemma check_rpm_clamps_witness :
  cadence_raw_rpm ten_per_second 10 1024 = 600%float /\
  fst (calculate_cadence 10 1024 ten_per_second) = inr 0%float /\
  check_rpm 60 = 60%float.
Proof.
  destruct (check_rpm_clamps 600 ten_per_second 10 1024) as (Hhi & _ & Hrun & _).
  destruct (check_rpm_clamps 60 ten_per_second 10 1024) as (_ & Hlo & _).
  split; [ reflexivity | split ].
  - rewrite Hrun.
    change (cadence_raw_rpm ten_per_second 10 1024) with 600%float.
    now rewrite (Hhi eq_refl).
  - exact (Hlo eq_refl).
Defined.

(** ** The speed estimator *)

Lemma get_wheel_speed_run s cum t :
  fst (get_cum_wheel_rev s) = inr cum ->
  fst (get_last_wheel_time s) = inr t ->
  get_wheel_speed s =
  (let rpm := wheel_rate (cum - prev_combo_csc_cum_wheel_rev s)
                (wrap_negative (t - prev_combo_csc_wheel_time s))
                (prev_combo_csc_cum_wheel_rev s) in
   (inr (kmph_of_rpm rpm, rpm), set_wheel cum t s)).
Proof.
  intros Hc Ht. unfold get_wheel_speed.
  now rewrite (bind_ok _ _ _ _ _ (get_wheel_rpm_run s cum t Hc Ht)).
Qed.

Lemma kmph_of_rpm_formula (rpm : float) :
  kmph_of_rpm rpm = (rpm / 60 * (0.622 * 3.14159265359) * 3.6)%float.
Proof.
  unfold kmph_of_rpm.
  now rewrite (float_mul_comm (0.622 * 3.14159265359) (rpm / 60)).
Qed.

(** C6.  With [rot_delta] the difference of the decoded and the previous
    revolution count and [time_delta] the adjusted difference of the event
    times, [get_wheel_speed] returns the rate 0 when [time_delta] is zero or
    the previous count is zero, and [1024.0 * (rot_delta * 60.0) /
    time_delta] otherwise, together with the speed
    [rate / 60 * (0.622 * 3.14159265359) * 3.6]; it sets the wheel fields to
    the decoded values.  Ten rotations in 1024 ticks after a nonzero count
    give the rate 600.0 and a speed between 70.25 and 70.35. *)
Theorem wheel_speed_formula s cum t :
  fst (get_cum_wheel_rev s) = inr cum ->
  fst (get_last_wheel_time s) = inr t ->
  let prev := prev_combo_csc_cum_wheel_rev s in
  let rot_delta := cum - prev in
  let time_delta := wrap_negative (t - prev_combo_csc_wheel_time s) in
  let wheel_rpm := wheel_rate rot_delta time_delta prev in
  let speed_kmph := (wheel_rpm / 60 * (0.622 * 3.14159265359) * 3.6)%float in
  get_wheel_speed s = (inr (speed_kmph, wheel_rpm), set_wheel cum t s) /\
  (time_delta = 0 \/ prev = 0 -> wheel_rpm = 0%float) /\
  (time_delta <> 0 -> prev <> 0 ->
   wheel_rpm = (1024 * (float_of_Z rot_delta * 60) / float_of_Z time_delta)%float) /\
  (rot_delta = 10 -> time_delta = 1024 -> prev <> 0 ->
   wheel_rpm = 600%float /\
   (70.25 <? speed_kmph)%float = true /\ (speed_kmph <? 70.35)%float = true).
Proof.
  intros Hc Ht prev rot_delta time_delta wheel_rpm speed_kmph.
  split; [ | split; [ | split ] ].
  - rewrite (get_wheel_speed_run s cum t Hc Ht). cbv zeta.
    now rewrite kmph_of_rpm_formula.
  - unfold wheel_rpm, wheel_rate. intros [H|H]; rewrite H.
    + reflexivity.
    + now rewrite andb_false_r.
  - intros Htd Hp. unfold wheel_rpm, wheel_rate.
    apply Z.eqb_neq in Htd, Hp. now rewrite Htd, Hp.
  - intros Hr Htd Hp.
    assert (E : wheel_rpm = 600%float).
    { unfold wheel_rpm, wheel_rate. rewrite Hr, Htd.
      apply Z.eqb_neq in Hp. now rewrite Hp. }
    unfold speed_kmph. rewrite E. repeat split.
Qed.

Lemma wheel_speed_formula_witness :
  fst (get_wheel_speed ten_wheel_turns) =
    inr ((600 / 60 * (0.622 * 3.14159265359) * 3.6)%float, 600%float) /\
  snd (get_wheel_speed ten_wheel_turns) = set_wheel 20 1024 ten_wheel_turns /\
  (70.25 <? 600 / 60 * (0.622 * 3.14159265359) * 3.6)%float = true /\
  (600 / 60 * (0.622 * 3.14159265359) * 3.6 <? 70.35)%float = true.
Proof.
  destruct (wheel_speed_formula ten_wheel_turns 20 1024 eq_refl eq_refl)
    as (Hrun & _ & _ & Hten).
  destruct Hten as (_ & Hlo & Hhi);
    [ reflexivity | reflexivity | cbn; lia | ].
  rewrite Hrun. repeat split.
Defined.

(** * Further properties *)

(** ** Calls on an object that is not connected or has an empty payload *)

(** X1.  On an object without a client every getter, both estimators'
    accessors and the polling routine raise [ValueError], and the object is
    left as it was. *)
Theorem not_connected_raises s name batt :
  client s = None ->
  get_mode s = (inl ValueError, s) /\
  get_cum_wheel_rev s = (inl ValueError, s) /\
  get_last_wheel_time s = (inl ValueError, s) /\
  get_cum_crank_rev s = (inl ValueError, s) /\
  get_last_crank_time s = (inl ValueError, s) /\
  get_wheel_rpm s = (inl ValueError, s) /\
  get_wheel_speed s = (inl ValueError, s) /\
  get_cadence s = (inl ValueError, s) /\
  generate_json_str name batt s = (inl ValueError, s).
Proof.
  intros H.
  assert (E : forall A (k : unit -> M A),
             bind _check_device_connected k s = (inl ValueError, s)).
  { intros A k. unfold bind, _check_device_connected. now rewrite H. }
  assert (Erpm : get_wheel_rpm s = (inl ValueError, s)) by apply E.
  assert (Espeed : get_wheel_speed s = (inl ValueError, s))
    by (unfold get_wheel_speed; now rewrite (bind_raise _ _ _ _ _ Erpm)).
  repeat split; try apply E; try assumption.
  unfold generate_json_str. now rewrite (bind_raise _ _ _ _ _ Espeed).
Qed.

Lemma not_connected_raises_witness :
  generate_json_str "BK467" 100 init = (inl ValueError, init) /\
  get_cadence init = (inl ValueError, init).
Proof.
  destruct (not_connected_raises init "BK467" 100 eq_refl)
    as (_ & _ & _ & _ & _ & _ & _ & Hc & Hg).
  exact (conj Hg Hc).
Defined.

(** X2.  On a connected object whose payload is empty the flags byte cannot
    be read: every getter, both accessors and the polling routine raise
    [IndexError], and the object is left as it was. *)
Theorem empty_payload_raises s c name batt :
  client s = Some c ->
  data s = [] ->
  get_mode s = (inl IndexError, s) /\
  get_cum_wheel_rev s = (inl IndexError, s) /\
  get_last_wheel_time s = (inl IndexError, s) /\
  get_cum_crank_rev s = (inl IndexError, s) /\
  get_last_crank_time s = (inl IndexError, s) /\
  get_wheel_rpm s = (inl IndexError, s) /\
  get_wheel_speed s = (inl IndexError, s) /\
  get_cadence s = (inl IndexError, s) /\
  generate_json_str name batt s = (inl IndexError, s).
Proof.
  intros Hc Hd.
  assert (Hm : fst (get_mode s) = inl IndexError)
    by (now rewrite get_mode_cases, Hc, Hd).
  assert (E : forall A (k : Mode -> M A),
             (_check_device_connected ;;; x <- get_mode ;; k x) s
             = (inl IndexError, s))
    by (intros A k; now apply getter_raise).
  assert (Erev : get_cum_wheel_rev s = (inl IndexError, s)) by apply E.
  assert (Erpm : get_wheel_rpm s = (inl IndexError, s)).
  { unfold get_wheel_rpm.
    rewrite (bind_ok _ _ s tt s (check_connected_run s c Hc)).
    now rewrite (bind_raise _ _ _ _ _ Erev). }
  assert (Espeed : get_wheel_speed s = (inl IndexError, s))
    by (unfold get_wheel_speed; now rewrite (bind_raise _ _ _ _ _ Erpm)).
  repeat split; try apply E; try assumption.
  - now apply run_eq; [ apply get_mode_pure | ].
  - unfold generate_json_str. now rewrite (bind_raise _ _ _ _ _ Espeed).
Qed.

Lemma empty_payload_raises_witness :
  generate_json_str "BK467" 100 (connected_with []) =
  (inl IndexError, connected_with []).
Proof.
  destruct (empty_payload_raises (connected_with []) (mkBleakClient "BK467")
              "BK467" 100 eq_refl eq_refl)
    as (_ & _ & _ & _ & _ & _ & _ & _ & Hg).
  exact Hg.
Defined.

(** ** What the accessors leave alone *)

(** The getters read the client and the payload only. *)
Ltac by_payload s :=
  destruct s as [cl d pw pt pc pct ps pr];
  cbn [client data] in *; subst;
  match goal with
  | |- context [mkBK467 ?c ?p _ _ _ _ _ _] =>
      destruct c; [ | reflexivity ];
      destruct p as [|b0 [|b1 [|b2 [|b3 [|b4 [|b5 [|b6 rest]]]]]]];
      try reflexivity;
      cbn -[Z.shiftl Z.land Z.ltb];
      destruct (0 <? Z.land b0 2); reflexivity
  end.

Lemma get_mode_same_io s s' :
  client s' = client s -> data s' = data s ->
  fst (get_mode s') = fst (get_mode s).
Proof.
  intros Hc Hd. rewrite !get_mode_cases, Hc, Hd.
  destruct (client s); [ destruct (data s) | ]; reflexivity.
Qed.

Lemma get_cum_wheel_rev_same_io s s' :
  client s' = client s -> data s' = data s ->
  fst (get_cum_wheel_rev s') = fst (get_cum_wheel_rev s).
Proof. intros Hc Hd. destruct s'. by_payload s. Qed.

Lemma get_last_wheel_time_same_io s s' :
  client s' = client s -> data s' = data s ->
  fst (get_last_wheel_time s') = fst (get_last_wheel_time s).
Proof. intros Hc Hd. destruct s'. by_payload s. Qed.

Lemma get_cum_crank_rev_same_io s s' :
  client s' = client s -> data s' = data s ->
  fst (get_cum_crank_rev s') = fst (get_cum_crank_rev s).
Proof. intros Hc Hd. destruct s'. by_payload s. Qed.

Lemma get_last_crank_time_same_io s s' :
  client s' = client s -> data s' = data s ->
  fst (get_last_crank_time s') = fst (get_last_crank_time s).
Proof. intros Hc Hd. destruct s'. by_payload s. Qed.

(** The two ways [get_wheel_rpm] ends. *)
Lemma get_wheel_rpm_outcome s :
  (exists e, get_wheel_rpm s = (inl e, s)) \/
  (exists cum t,
     fst (get_cum_wheel_rev s) = inr cum /\
     fst (get_last_wheel_time s) = inr t /\
     get_wheel_rpm s =
     (inr (wheel_rate (cum - prev_combo_csc_cum_wheel_rev s)
             (wrap_negative (t - prev_combo_csc_wheel_time s))
             (prev_combo_csc_cum_wheel_rev s)),
      set_wheel cum t s)).
Proof.
  destruct (fst (get_cum_wheel_rev s)) as [e|cum] eqn:Hc.
  - left. exists e. destruct (client s) as [c|] eqn:Hcl.
    + unfold get_wheel_rpm.
      rewrite (bind_ok _ _ s tt s (check_connected_run s c Hcl)).
      now rewrite (bind_raise _ _ s e s
                     (run_eq _ s _ (get_cum_wheel_rev_pure s) Hc)).
    + unfold get_cum_wheel_rev, bind at 1, _check_device_connected in Hc.
      unfold get_wheel_rpm, bind at 1, _check_device_connected.
      rewrite Hcl in *. cbn in Hc |- *. congruence.
  - destruct (get_cum_wheel_rev_connected s cum Hc) as [c Hcl].
    destruct (fst (get_last_wheel_time s)) as [e|t] eqn:Ht.
    + left. exists e. unfold get_wheel_rpm.
      rewrite (bind_ok _ _ s tt s (check_connected_run s c Hcl)).
      rewrite (bind_ok _ _ s cum s (run_eq _ s _ (get_cum_wheel_rev_pure s) Hc)).
      now rewrite (bind_raise _ _ s e s
                     (run_eq _ s _ (get_last_wheel_time_pure s) Ht)).
    + right. exists cum, t. repeat split. now apply get_wheel_rpm_run.
Qed.

(** The three ways [get_cadence] ends. *)
Lemma get_cadence_outcome s :
  (exists e, get_cadence s = (inl e, s)) \/
  get_cadence s = (inr (PyInt 0), s) \/
  (exists cum t,
     fst (get_mode s) = inr cadence /\
     fst (get_cum_crank_rev s) = inr cum /\
     fst (get_last_crank_time s) = inr t /\
     get_cadence s =
     (inr (PyFloat (check_rpm (cadence_raw_rpm s cum t))),
      snd (calculate_cadence cum t s))).
Proof.
  destruct (fst (get_mode s)) as [e|m] eqn:Hm.
  - left. exists e. unfold get_cadence. now apply getter_raise.
  - destruct m.
    + right. left. now apply get_cadence_in_speed.
    + unfold get_cadence. rewrite (getter_run _ s cadence Hm).
      cbn [Mode_eqb negb].
      destruct (fst (get_cum_crank_rev s)) as [e|cum] eqn:Hc.
      * left. exists e.
        now rewrite (bind_raise _ _ s e s
                       (run_eq _ s _ (get_cum_crank_rev_pure s) Hc)).
      * rewrite (bind_ok _ _ s cum s
                   (run_eq _ s _ (get_cum_crank_rev_pure s) Hc)).
        destruct (fst (get_last_crank_time s)) as [e|t] eqn:Ht.
        -- left. exists e.
           now rewrite (bind_raise _ _ s e s
                          (run_eq _ s _ (get_last_crank_time_pure s) Ht)).
        -- right. right. exists cum, t. repeat split.
           rewrite (bind_ok _ _ s t s
                      (run_eq _ s _ (get_last_crank_time_pure s) Ht)).
           unfold bind. pose proof (calculate_cadence_check s cum t) as Hk.
           destruct (calculate_cadence cum t s) as [r s'].
           cbn [fst snd] in *. now rewrite Hk.
Qed.

Lemma calculate_cadence_frame cum t s :
  let s' := snd (calculate_cadence cum t s) in
  client s' = client s /\ data s' = data s /\
  prev_combo_csc_cum_wheel_rev s' = prev_combo_csc_cum_wheel_rev s /\
  prev_combo_csc_wheel_time s' = prev_combo_csc_wheel_time s /\
  prev_cum_crank_rev s' = cum /\ prev_crank_time s' = t.
Proof.
  unfold calculate_cadence.
  destruct (cadence_branch s _ _) as [[rpm st] good]. now cbn.
Qed.

(** X3.  Whether they return or raise, the wheel accessors never change the
    client, the payload or the four crank fields, and [get_cadence] never
    changes the client, the payload or the two wheel fields. *)
Theorem accessors_frame s :
  (let s' := snd (get_wheel_speed s) in
   client s' = client s /\ data s' = data s /\
   prev_cum_crank_rev s' = prev_cum_crank_rev s /\
   prev_crank_time s' = prev_crank_time s /\
   prev_crank_staleness s' = prev_crank_staleness s /\
   prev_rpm s' = prev_rpm s) /\
  (let s' := snd (get_cadence s) in
   client s' = client s /\ data s' = data s /\
   prev_combo_csc_cum_wheel_rev s' = prev_combo_csc_cum_wheel_rev s /\
   prev_combo_csc_wheel_time s' = prev_combo_csc_wheel_time s).
Proof.
  split.
  - unfold get_wheel_speed, bind.
    destruct (get_wheel_rpm_outcome s) as [[e H]|(cum & t & _ & _ & H)];
      rewrite H; cbn; repeat split.
  - destruct (get_cadence_outcome s) as [[e H]|[H|(cum & t & _ & _ & _ & H)]];
      rewrite H; cbn [snd]; try (repeat split; fail).
    destruct (calculate_cadence_frame cum t s) as (H1 & H2 & H3 & H4 & _).
    repeat split; assumption.
Qed.

(** ** The snapshot of one poll *)

Ltac step H := rewrite (bind_ok _ _ _ _ _ H); cbv beta.

(** A getter run on an object with the client and the payload of another. *)
Lemma getter_on_same_io {A} (g : M A) s s' v :
  (forall x, snd (g x) = x) ->
  fst (g s') = fst (g s) ->
  fst (g s) = inr v ->
  g s' = (inr v, s').
Proof. intros Hp He Hv. apply run_eq; [ apply Hp | congruence ]. Qed.

(** The decoded fields of a payload that is long enough for its mode. *)
Lemma wheel_fields_run s :
  fst (get_mode s) = inr speed -> (7 <= List.length (data s))%nat ->
  fst (get_cum_wheel_rev s) = inr (le_value (field 1 4 (data s))) /\
  fst (get_last_wheel_time s) = inr (le_value (field 5 2 (data s))).
Proof.
  intros Hm Hl.
  destruct (data s) as [|b0 [|b1 [|b2 [|b3 [|b4 [|b5 [|b6 rest]]]]]]] eqn:Hd;
    cbn [List.length] in Hl; try lia.
  split.
  - unfold get_cum_wheel_rev. rewrite (getter_run _ s speed Hm).
    cbn [Mode_eqb negb]. unfold bind, data_at, ret.
    repeat (rewrite Hd; cbn [nth_error]). cbn [field skipn firstn fst].
    now rewrite le_value_4.
  - unfold get_last_wheel_time. rewrite (getter_run _ s speed Hm).
    cbn [Mode_eqb negb]. unfold bind, data_at, ret.
    repeat (rewrite Hd; cbn [nth_error]). cbn [field skipn firstn fst].
    now rewrite le_value_2.
Qed.

Lemma crank_fields_run s :
  fst (get_mode s) = inr cadence -> (5 <= List.length (data s))%nat ->
  fst (get_cum_crank_rev s) = inr (le_value (field 1 2 (data s))) /\
  fst (get_last_crank_time s) = inr (le_value (field 3 2 (data s))).
Proof.
  intros Hm Hl.
  destruct (data s) as [|b0 [|b1 [|b2 [|b3 [|b4 rest]]]]] eqn:Hd;
    cbn [List.length] in Hl; try lia.
  split.
  - unfold get_cum_crank_rev. rewrite (getter_run _ s cadence Hm).
    cbn [Mode_eqb negb]. unfold bind, data_at, ret.
    repeat (rewrite Hd; cbn [nth_error]). cbn [field skipn firstn fst].
    now rewrite le_value_2.
  - unfold get_last_crank_time. rewrite (getter_run _ s cadence Hm).
    cbn [Mode_eqb negb]. unfold bind, data_at, ret.
    repeat (rewrite Hd; cbn [nth_error]). cbn [field skipn firstn fst].
    now rewrite le_value_2.
Qed.

(** The poll of an object in speed mode whose two wheel getters return. *)
Lemma generate_json_str_speed s cum t name batt :
  fst (get_mode s) = inr speed ->
  fst (get_cum_wheel_rev s) = inr cum ->
  fst (get_last_wheel_time s) = inr t ->
  generate_json_str name batt s =
  (let rpm := wheel_rate (cum - prev_combo_csc_cum_wheel_rev s)
                (wrap_negative (t - prev_combo_csc_wheel_time s))
                (prev_combo_csc_cum_wheel_rev s) in
   (inr (mkSnapshot name batt "speed" (PyInt 0) 0 0 0
           (kmph_of_rpm rpm) rpm cum t (ticks_to_sec t)),
    set_wheel cum t s)).
Proof.
  intros Hm Hc Ht. cbv zeta.
  set (s1 := set_wheel cum t s).
  assert (Hm1 : fst (get_mode s1) = inr speed)
    by (unfold s1; now rewrite get_mode_set_wheel).
  destruct (crank_getters_in_speed s1 Hm1) as [Hcc Hct].
  pose proof (getter_on_same_io get_mode s s1 speed get_mode_pure
                (get_mode_same_io s s1 eq_refl eq_refl) Hm) as Rm.
  pose proof (getter_on_same_io get_cum_wheel_rev s s1 cum
                get_cum_wheel_rev_pure
                (get_cum_wheel_rev_same_io s s1 eq_refl eq_refl) Hc) as Rc.
  pose proof (getter_on_same_io get_last_wheel_time s s1 t
                get_last_wheel_time_pure
                (get_last_wheel_time_same_io s s1 eq_refl eq_refl) Ht) as Rt.
  unfold generate_json_str.
  step (get_wheel_speed_run s cum t Hc Ht). fold s1.
  step Rm. step (get_cadence_in_speed s1 Hm1).
  step Hcc. step Hct. step Hct. step Rc. step Rt. step Rt.
  reflexivity.
Qed.

(** The poll of an object in cadence mode whose two crank getters return. *)
Lemma generate_json_str_cadence s cum t name batt :
  fst (get_mode s) = inr cadence ->
  fst (get_cum_crank_rev s) = inr cum ->
  fst (get_last_crank_time s) = inr t ->
  generate_json_str name batt s =
  (let wheel_rpm := wheel_rate (0 - prev_combo_csc_cum_wheel_rev s)
                      (wrap_negative (0 - prev_combo_csc_wheel_time s))
                      (prev_combo_csc_cum_wheel_rev s) in
   (inr (mkSnapshot name batt "cadence"
           (PyFloat (check_rpm (cadence_raw_rpm s cum t)))
           cum t (ticks_to_sec t)
           (kmph_of_rpm wheel_rpm) wheel_rpm 0 0 0),
    snd (calculate_cadence cum t (set_wheel 0 0 s)))).
Proof.
  intros Hm Hc Ht. cbv zeta.
  set (s1 := set_wheel 0 0 s).
  set (s2 := snd (calculate_cadence cum t s1)).
  destruct (calculate_cadence_frame cum t s1) as (Hcl2 & Hd2 & _).
  fold s2 in Hcl2, Hd2.
  assert (Hm1 : fst (get_mode s1) = inr cadence)
    by (unfold s1; now rewrite get_mode_set_wheel).
  assert (Hm2 : fst (get_mode s2) = inr cadence)
    by (now rewrite (get_mode_same_io s1 s2 Hcl2 Hd2)).
  destruct (wheel_getters_in_cadence s Hm) as [Hwc Hwt].
  destruct (wheel_getters_in_cadence s2 Hm2) as [Hwc2 Hwt2].
  pose proof (getter_on_same_io get_mode s s1 cadence get_mode_pure
                (get_mode_same_io s s1 eq_refl eq_refl) Hm) as Rm.
  pose proof (getter_on_same_io get_cum_crank_rev s s1 cum
                get_cum_crank_rev_pure
                (get_cum_crank_rev_same_io s s1 eq_refl eq_refl) Hc) as Rc1.
  pose proof (getter_on_same_io get_last_crank_time s s1 t
                get_last_crank_time_pure
                (get_last_crank_time_same_io s s1 eq_refl eq_refl) Ht) as Rt1.
  assert (Rc2 : get_cum_crank_rev s2 = (inr cum, s2)).
  { apply (getter_on_same_io get_cum_crank_rev s1 s2 cum
             get_cum_crank_rev_pure
             (get_cum_crank_rev_same_io s1 s2 Hcl2 Hd2)).
    now rewrite Rc1. }
  assert (Rt2 : get_last_crank_time s2 = (inr t, s2)).
  { apply (getter_on_same_io get_last_crank_time s1 s2 t
             get_last_crank_time_pure
             (get_last_crank_time_same_io s1 s2 Hcl2 Hd2)).
    now rewrite Rt1. }
  assert (Rcad : get_cadence s1 =
                 (inr (PyFloat (check_rpm (cadence_raw_rpm s cum t))), s2)).
  { unfold get_cadence. rewrite (getter_run _ s1 cadence Hm1).
    cbn [Mode_eqb negb]. step Rc1. step Rt1.
    unfold bind. pose proof (calculate_cadence_check s1 cum t) as Hk.
    unfold s2. destruct (calculate_cadence cum t s1) as [r s'].
    cbn [fst snd] in *. now rewrite Hk. }
  unfold generate_json_str.
  assert (Hwc' : fst (get_cum_wheel_rev s) = inr 0) by now rewrite Hwc.
  assert (Hwt' : fst (get_last_wheel_time s) = inr 0) by now rewrite Hwt.
  step (get_wheel_speed_run s 0 0 Hwc' Hwt'). fold s1.
  step Rm. step Rcad. step Rc2. step Rt2. step Rt2.
  step Hwc2. step Hwt2. step Hwt2.
  reflexivity.
Qed.

(** X4.  In speed mode, with a payload of at least seven bytes, a poll
    returns a snapshot whose every field comes from that payload: the mode
    ["speed"], the count of bytes 1..4 and the time of bytes 5..6, the rate
    and the speed computed from them and the previous wheel fields, and
    zeros for the cadence and the crank fields.  Afterwards the wheel fields
    hold the decoded count and time; nothing else has changed. *)
Theorem poll_speed_snapshot s name batt :
  fst (get_mode s) = inr speed ->
  (7 <= List.length (data s))%nat ->
  let cum := le_value (field 1 4 (data s)) in
  let t := le_value (field 5 2 (data s)) in
  let rpm := wheel_rate (cum - prev_combo_csc_cum_wheel_rev s)
               (wrap_negative (t - prev_combo_csc_wheel_time s))
               (prev_combo_csc_cum_wheel_rev s) in
  generate_json_str name batt s =
  (inr (mkSnapshot name batt "speed" (PyInt 0) 0 0 0
          (kmph_of_rpm rpm) rpm cum t (ticks_to_sec t)),
   set_wheel cum t s).
Proof.
  intros Hm Hl. destruct (wheel_fields_run s Hm Hl) as [Hc Ht].
  now apply generate_json_str_speed.
Qed.

Lemma poll_speed_snapshot_witness :
  generate_json_str "BK467" 100 ten_wheel_turns =
  (inr (mkSnapshot "BK467" 100 "speed" (PyInt 0) 0 0 0
          (kmph_of_rpm 600) 600%float 20 1024 1),
   set_wheel 20 1024 ten_wheel_turns).
Proof.
  assert (Hl : (7 <= List.length (data ten_wheel_turns))%nat) by (cbn; lia).
  exact (poll_speed_snapshot ten_wheel_turns "BK467" 100 eq_refl Hl).
Defined.

(** X5.  In cadence mode, with a payload of at least five bytes, a poll
    returns a snapshot with the mode ["cadence"], the count of bytes 1..2
    and the time of bytes 3..4, and the cadence [calculate_cadence] derives
    from them; the wheel fields of the snapshot are zero, its wheel rate is
    the one of a zero count and time against the previous wheel fields.
    Afterwards the wheel fields are zero and the crank fields are those
    [calculate_cadence] leaves. *)
Theorem poll_cadence_snapshot s name batt :
  fst (get_mode s) = inr cadence ->
  (5 <= List.length (data s))%nat ->
  let cum := le_value (field 1 2 (data s)) in
  let t := le_value (field 3 2 (data s)) in
  let wheel_rpm := wheel_rate (0 - prev_combo_csc_cum_wheel_rev s)
                     (wrap_negative (0 - prev_combo_csc_wheel_time s))
                     (prev_combo_csc_cum_wheel_rev s) in
  generate_json_str name batt s =
  (inr (mkSnapshot name batt "cadence"
          (PyFloat (check_rpm (cadence_raw_rpm s cum t)))
          cum t (ticks_to_sec t)
          (kmph_of_rpm wheel_rpm) wheel_rpm 0 0 0),
   snd (calculate_cadence cum t (set_wheel 0 0 s))).
Proof.
  intros Hm Hl. destruct (crank_fields_run s Hm Hl) as [Hc Ht].
  now apply generate_json_str_cadence.
Qed.

Lemma poll_cadence_snapshot_witness :
  generate_json_str "BK467" 100 (connected_with [2; 1; 0; 0; 4]) =
  (inr (mkSnapshot "BK467" 100 "cadence" (PyFloat 60) 1 1024 1
          0%float 0%float 0 0 0),
   set_crank 1 1024 0 60%float (connected_with [2; 1; 0; 0; 4])).
Proof.
  assert (Hl : (5 <= List.length (data (connected_with [2; 1; 0; 0; 4]%Z)))%nat)
    by (cbn; lia).
  exact (poll_cadence_snapshot (connected_with [2; 1; 0; 0; 4]) "BK467" 100
           eq_refl Hl).
Defined.

(** The bytes a mode reads. *)
Lemma generate_json_str_mode_raises s e name batt :
  fst (get_mode s) = inl e ->
  fst (generate_json_str name batt s) = inl e.
Proof.
  intros Hm. unfold generate_json_str, get_wheel_speed.
  assert (Hrev : get_cum_wheel_rev s = (inl e, s))
    by (unfold get_cum_wheel_rev; now apply getter_raise).
  destruct (get_wheel_rpm_outcome s) as [[e' H]|(cum & t & Hc & _)].
  - unfold bind at 1. unfold bind at 1. rewrite H. cbn [fst].
    destruct (client s) as [c|] eqn:Hcl.
    + unfold get_wheel_rpm in H.
      rewrite (bind_ok _ _ s tt s (check_connected_run s c Hcl)) in H.
      rewrite (bind_raise _ _ s e s Hrev) in H. congruence.
    + rewrite get_mode_cases, Hcl in Hm. cbn in Hm.
      unfold get_wheel_rpm, bind at 1, _check_device_connected in H.
      rewrite Hcl in H. cbn in H. congruence.
  - rewrite Hrev in Hc. discriminate.
Qed.

(** X6.  A poll returns a snapshot exactly when the object is connected and
    its payload has the bytes its mode reads: a flags byte, and seven bytes
    in speed mode, five in cadence mode.  In every other case it raises. *)
Theorem poll_returns_iff s name batt :
  (exists snap, fst (generate_json_str name batt s) = inr snap) <->
  (exists m, fst (get_mode s) = inr m /\
             (match m with speed => 7 | cadence => 5 end
              <= List.length (data s))%nat).
Proof.
  split.
  - intros [snap Hs].
    destruct (fst (get_mode s)) as [e|m] eqn:Hm.
    + rewrite (generate_json_str_mode_raises s e name batt Hm) in Hs.
      discriminate.
    + exists m. split; [ reflexivity | ].
      destruct (Nat.le_gt_cases (match m with speed => 7 | cadence => 5 end)
                  (List.length (data s))) as [Hle|Hgt]; [ exact Hle | ].
      rewrite (generate_json_str_short s m name batt Hm Hgt) in Hs.
      discriminate.
  - intros [m [Hm Hl]]. destruct m.
    + destruct (wheel_fields_run s Hm Hl) as [Hc Ht].
      rewrite (generate_json_str_speed s _ _ name batt Hm Hc Ht).
      cbv zeta. cbn [fst]. eauto.
    + destruct (crank_fields_run s Hm Hl) as [Hc Ht].
      rewrite (generate_json_str_cadence s _ _ name batt Hm Hc Ht).
      cbv zeta. cbn [fst]. eauto.
Qed.

Lemma poll_returns_iff_witness :
  (exists snap,
     fst (generate_json_str "BK467" 100 ten_wheel_turns) = inr snap) /\
  ~ (exists snap,
       fst (generate_json_str "BK467" 100 truncated_speed) = inr snap).
Proof.
  split.
  - apply (proj2 (poll_returns_iff ten_wheel_turns "BK467" 100)).
    exists speed. split; [ reflexivity | cbn; lia ].
  - intros H.
    apply (proj1 (poll_returns_iff truncated_speed "BK467" 100)) in H.
    destruct H as [m [Hm Hl]].
    assert (m = speed) by (cbn in Hm; congruence). subst m.
    cbn in Hl. lia.
Defined.

(** ** Ranges of the decoded fields *)

Ltac bytes_of H :=
  repeat match type of H with
  | Forall _ (_ :: _) =>
      let Hb := fresh "Hb" in
      apply Forall_cons_iff in H; destruct H as [Hb H]; unfold is_byte in Hb
  end.

Ltac field_range s Hb :=
  destruct s as [cl d pw pt pc pct ps pr]; cbn [data] in Hb;
  destruct cl as [c|]; [ | cbn; discriminate ];
  destruct d as [|b0 [|b1 [|b2 [|b3 [|b4 [|b5 [|b6 rest]]]]]]];
  try (cbn; discriminate);
  bytes_of Hb;
  cbn -[Z.shiftl Z.land Z.ltb Z.pow];
  destruct (0 <? Z.land b0 2); cbn -[Z.shiftl Z.pow];
  try discriminate;
  intros E; apply (f_equal (fun r => match r with inr z => z | inl _ => 0 end)) in E;
  subst; rewrite ?Z.shiftl_mul_pow2 by lia; lia.

(** X7.  When the payload holds bytes, whatever a getter returns is in the
    range of its field: the wheel count below [2^32], the two event times
    and the crank count below [2^16], none negative. *)
Theorem decoded_field_bounds s :
  Forall is_byte (data s) ->
  (forall v, fst (get_cum_wheel_rev s) = inr v -> 0 <= v < 2 ^ 32) /\
  (forall v, fst (get_last_wheel_time s) = inr v -> 0 <= v < 2 ^ 16) /\
  (forall v, fst (get_cum_crank_rev s) = inr v -> 0 <= v < 2 ^ 16) /\
  (forall v, fst (get_last_crank_time s) = inr v -> 0 <= v < 2 ^ 16).
Proof.
  intros Hb. split; [ | split; [ | split ] ]; intros v; field_range s Hb.
Qed.

Lemma decoded_field_bounds_witness :
  0 <= 4294967295 < 2 ^ 32 /\ 0 <= 65535 < 2 ^ 16.
Proof.
  assert (Hb : Forall is_byte
                 (data (connected_with [1; 255; 255; 255; 255; 255; 255]))).
  { cbn. repeat constructor; unfold is_byte; lia. }
  destruct (decoded_field_bounds _ Hb) as (Hc & Ht & _).
  exact (conj (Hc 4294967295 eq_refl) (Ht 65535 eq_refl)).
Defined.

(** ** The adjusted difference of two 16-bit samples *)

(** X8.  For two samples of a 16-bit field the adjusted difference is never
    negative and at most 65535; it is the forward distance modulo 65536
    while the field has not rolled over and one less after a rollover.  It
    is zero when the samples are equal, and also on the rollover step from
    65535 to 0, and in no other case. *)
Theorem wrap_negative_16bit current previous :
  0 <= previous < 65536 ->
  0 <= current < 65536 ->
  0 <= wrap_negative (current - previous) < 65536 /\
  (previous <= current ->
   wrap_negative (current - previous) = delta_mod current previous 65536) /\
  (current < previous ->
   wrap_negative (current - previous) = delta_mod current previous 65536 - 1) /\
  (wrap_negative (current - previous) = 0 <->
   current = previous \/ (current = 0 /\ previous = 65535)).
Proof.
  intros Hp Hc. pose proof (wrap_negative_spec current previous Hp Hc) as Hs.
  assert (Hw : wrap_negative (current - previous) =
               if current <? previous
               then current - previous + 65535 else current - previous).
  { unfold wrap_negative.
    destruct (Z.ltb_spec current previous), (Z.ltb_spec (current - previous) 0);
      lia. }
  destruct (Z.ltb_spec current previous) as [Hlt|Hge].
  - repeat split; try lia.
  - repeat split; try lia.
Qed.

Lemma wrap_negative_16bit_witness :
  wrap_negative (0 - 65535) = 0 /\
  wrap_negative (3 - 65534) = delta_mod 3 65534 65536 - 1.
Proof.
  destruct (wrap_negative_16bit 0 65535) as (_ & _ & _ & Hz); [ lia | lia | ].
  destruct (wrap_negative_16bit 3 65534) as (_ & _ & Hr & _); [ lia | lia | ].
  split; [ apply Hz; right; split; reflexivity | apply Hr; lia ].
Defined.

(** ** The cadence returned *)

Lemma SFcompare_Eq_swap x y : SFcompare x y = Some Eq -> SFcompare y x = Some Eq.
Proof.
  destruct x as [sx|sx| |sx mx ex], y as [sy|sy| |sy my ey]; cbn;
    try discriminate; try reflexivity;
    try (destruct sx; discriminate);
    try (destruct sy; discriminate);
    try (destruct sx, sy; try discriminate; reflexivity).
  destruct sx, sy; try discriminate;
    rewrite (Z.compare_antisym ex ey);
    change (Pos.compare_cont Eq my mx) with (Pos.compare my mx);
    change (Pos.compare_cont Eq mx my) with (Pos.compare mx my);
    rewrite (Pos.compare_antisym mx my);
    destruct (ex ?= ey); cbn; try discriminate;
    destruct (mx ?= my)%positive; cbn; try discriminate; reflexivity.
Qed.

Lemma SFcompare_self x y c : SFcompare x y = Some c -> SFcompare x x = Some Eq.
Proof.
  destruct x as [sx|sx| |sx mx ex]; cbn.
  - reflexivity.
  - destruct sx; reflexivity.
  - discriminate.
  - intros _. rewrite Z.compare_refl.
    change (Pos.compare_cont Eq mx mx) with (Pos.compare mx mx).
    rewrite Pos.compare_refl. destruct sx; reflexivity.
Qed.

Lemma leb_ltb_false (x y : float) :
  (x <=? y)%float = true -> (y <? x)%float = false.
Proof.
  rewrite ltb_spec, leb_spec. unfold SFltb, SFleb.
  destruct (SFcompare (Prim2SF x) (Prim2SF y)) as [[]|] eqn:E; try discriminate;
    intros _.
  - now rewrite (SFcompare_Eq_swap _ _ E).
  - now rewrite (SFcompare_Lt_swap _ _ E).
Qed.

Lemma leb_eqb_self (x y : float) :
  (x <=? y)%float = true -> (x =? x)%float = true.
Proof.
  rewrite eqb_spec, leb_spec. unfold SFeqb, SFleb.
  destruct (SFcompare (Prim2SF x) (Prim2SF y)) as [c|] eqn:E; try discriminate.
  intros _. now rewrite (SFcompare_self _ _ _ E).
Qed.

Lemma check_rpm_range (rpm : float) :
  (500 <? check_rpm rpm)%float = false /\
  (check_rpm rpm =? check_rpm rpm)%float = true.
Proof.
  unfold check_rpm. destruct (rpm <=? 500)%float eqn:E.
  - split; [ now apply leb_ltb_false | now apply (leb_eqb_self rpm 500) ].
  - split; reflexivity.
Qed.

(** X9.  Whatever the object and its payload, a cadence that [get_cadence]
    returns is the integer 0 or a float that is a number (not a NaN) and is
    not above 500. *)
Theorem get_cadence_bounded s v :
  fst (get_cadence s) = inr v ->
  v = PyInt 0 \/
  exists f, v = PyFloat f /\
            (500 <? f)%float = false /\ (f =? f)%float = true.
Proof.
  intros H.
  destruct (get_cadence_outcome s) as [[e E]|[E|(cum & t & _ & _ & _ & E)]];
    rewrite E in H; cbn [fst] in H.
  - discriminate.
  - left. congruence.
  - right. exists (check_rpm (cadence_raw_rpm s cum t)).
    split; [ congruence | apply check_rpm_range ].
Qed.

Lemma get_cadence_bounded_witness :
  exists f, PyFloat 0 = PyFloat f /\
            (500 <? f)%float = false /\ (f =? f)%float = true.
Proof.
  destruct (get_cadence_bounded ten_per_second (PyFloat 0) eq_refl) as [H|H].
  - discriminate H.
  - exact H.
Defined.

(** ** The staleness counter *)

Lemma calculate_cadence_staleness cum t s :
  let s' := snd (calculate_cadence cum t s) in
  (wrap_negative (t - prev_crank_time s) <> 0 -> prev_crank_staleness s' = 0) /\
  (wrap_negative (t - prev_crank_time s) = 0 ->
   prev_crank_staleness s < 2 ->
   prev_crank_staleness s' = prev_crank_staleness s + 1) /\
  (wrap_negative (t - prev_crank_time s) = 0 ->
   2 <= prev_crank_staleness s ->
   prev_crank_staleness s' = prev_crank_staleness s /\
   fst (calculate_cadence cum t s) = inr 0%float).
Proof.
  cbv zeta. split; [ | split ].
  - intros H. now rewrite (calculate_cadence_fresh s cum t H).
  - intros H Hs. now rewrite (calculate_cadence_stale s cum t H Hs).
  - intros H Hs. now rewrite (calculate_cadence_stopped s cum t H Hs).
Qed.

(** X10.  A staleness counter between 0 and 2 stays between 0 and 2 through
    [calculate_cadence] and through [get_cadence], whatever the sample and
    whether [get_cadence] returns or raises. *)
Theorem staleness_in_range s cum t :
  0 <= prev_crank_staleness s <= 2 ->
  0 <= prev_crank_staleness (snd (calculate_cadence cum t s)) <= 2 /\
  0 <= prev_crank_staleness (snd (get_cadence s)) <= 2.
Proof.
  intros Hs.
  assert (Hk : forall c u,
             0 <= prev_crank_staleness (snd (calculate_cadence c u s)) <= 2).
  { intros c u.
    destruct (calculate_cadence_staleness c u s) as (Hf & Hst & Hsp).
    destruct (Z.eq_dec (wrap_negative (u - prev_crank_time s)) 0) as [E|E].
    - destruct (Z_lt_ge_dec (prev_crank_staleness s) 2) as [Hlt|Hge].
      + rewrite (Hst E Hlt). lia.
      + destruct (Hsp E) as [-> _]; lia.
    - rewrite (Hf E). lia. }
  split; [ apply Hk | ].
  destruct (get_cadence_outcome s) as [[e E]|[E|(c & u & _ & _ & _ & E)]];
    rewrite E; cbn [snd]; auto.
Qed.

Lemma staleness_in_range_witness :
  0 <= prev_crank_staleness (snd (get_cadence ten_per_second)) <= 2.
Proof.
  assert (H : 0 <= prev_crank_staleness ten_per_second <= 2) by (cbn; lia).
  exact (proj2 (staleness_in_range ten_per_second 0 0 H)).
Defined.

(** ** Polls without a new notification *)

(** One poll in cadence mode: what it returns and where it leaves the
    object. *)
Lemma poll_cadence_step s name batt :
  fst (get_mode s) = inr cadence ->
  (5 <= List.length (data s))%nat ->
  exists snap s',
    generate_json_str name batt s = (inr snap, s') /\
    polled_cadence s' /\
    data s' = data s /\
    (0 <= prev_crank_staleness s -> 0 <= prev_crank_staleness s') /\
    (polled_cadence s ->
     Z.min 2 (prev_crank_staleness s + 1) <= prev_crank_staleness s' /\
     (2 <= prev_crank_staleness s -> snap_cadence snap = PyFloat 0)).
Proof.
  intros Hm Hl. destruct (crank_fields_run s Hm Hl) as [Hc Ht].
  set (cum := le_value (field 1 2 (data s))) in *.
  set (t := le_value (field 3 2 (data s))) in *.
  pose proof (generate_json_str_cadence s cum t name batt Hm Hc Ht) as Hg.
  cbv zeta in Hg.
  set (s1 := set_wheel 0 0 s) in *.
  destruct (calculate_cadence_frame cum t s1) as (Hcl & Hd & _ & _ & _ & Hpt).
  destruct (calculate_cadence_staleness cum t s1) as (Hf & Hst & Hsp).
  eexists. eexists. split; [ exact Hg | ]. cbn [snd].
  split; [ | split; [ | split ] ].
  - repeat split.
    + rewrite (get_mode_same_io s1 _ Hcl Hd). unfold s1.
      now rewrite get_mode_set_wheel.
    + now rewrite Hd.
    + now rewrite Hpt, Hd.
  - now rewrite Hd.
  - intros H0. change (prev_crank_staleness s1) with (prev_crank_staleness s) in *.
    destruct (Z.eq_dec (wrap_negative (t - prev_crank_time s1)) 0) as [E|E].
    + destruct (Z_lt_ge_dec (prev_crank_staleness s) 2) as [Hlt|Hge].
      * rewrite (Hst E Hlt). lia.
      * destruct (Hsp E) as [-> _]; lia.
    + rewrite (Hf E). lia.
  - intros (_ & _ & Hp).
    change (prev_crank_staleness s1) with (prev_crank_staleness s) in *.
    assert (E : wrap_negative (t - prev_crank_time s1) = 0).
    { change (prev_crank_time s1) with (prev_crank_time s).
      fold t in Hp. rewrite Hp, Z.sub_diag. reflexivity. }
    destruct (Z_lt_ge_dec (prev_crank_staleness s) 2) as [Hlt|Hge].
    + rewrite (Hst E Hlt). split; lia.
    + destruct (Hsp E) as [Heq Hz]; [ lia | ]. rewrite Heq.
      split; [ lia | ]. intros _. cbn [snap_cadence].
      pose proof (calculate_cadence_check s1 cum t) as Hk.
      rewrite Hz in Hk.
      change (cadence_raw_rpm s1 cum t) with (cadence_raw_rpm s cum t) in Hk.
      apply inr_float_inj in Hk. now rewrite <- Hk.
Qed.

Lemma polls_cons name batt n s snap s' snaps s'' :
  generate_json_str name batt s = (inr snap, s') ->
  polls name batt n s' = (inr snaps, s'') ->
  polls name batt (S n) s = (inr (snap :: snaps), s'').
Proof.
  intros H1 H2. cbn [polls].
  rewrite (bind_ok _ _ _ _ _ H1). now rewrite (bind_ok _ _ _ _ _ H2).
Qed.

Lemma polls_stopped name batt n :
  forall s, polled_cadence s -> 2 <= prev_crank_staleness s ->
  exists snaps s',
    polls name batt n s = (inr snaps, s') /\
    List.length snaps = n /\
    Forall (fun snap => snap_cadence snap = PyFloat 0) snaps.
Proof.
  induction n as [|n IH]; intros s Hp Hs.
  - exists [], s. repeat split. constructor.
  - destruct Hp as (Hm & Hl & Hpt).
    destruct (poll_cadence_step s name batt Hm Hl)
      as (snap & s' & Hg & Hp' & _ & _ & Hstale).
    destruct (Hstale (conj Hm (conj Hl Hpt))) as [Hmin Hzero].
    destruct (IH s' Hp' ltac:(lia)) as (snaps & s'' & Hrest & Hlen & Hall).
    exists (snap :: snaps), s''. split; [ | split ].
    + exact (polls_cons _ _ _ _ _ _ _ _ Hg Hrest).
    + cbn [List.length]. now rewrite Hlen.
    + constructor; [ now apply Hzero | exact Hall ].
Qed.

(** X11.  In cadence mode, with a payload of at least five bytes and a
    staleness counter that is not negative, polling again and again without
    a new notification raises nothing, and from the fourth poll on every
    snapshot reports the cadence 0.0. *)
Theorem polls_cadence_goes_to_zero s name batt n :
  fst (get_mode s) = inr cadence ->
  (5 <= List.length (data s))%nat ->
  0 <= prev_crank_staleness s ->
  exists a b c rest s',
    polls name batt (3 + n) s = (inr (a :: b :: c :: rest), s') /\
    List.length rest = n /\
    Forall (fun snap => snap_cadence snap = PyFloat 0) rest.
Proof.
  intros Hm Hl H0.
  destruct (poll_cadence_step s name batt Hm Hl)
    as (a & s1 & Hg1 & Hp1 & _ & Hnn & _).
  specialize (Hnn H0).
  pose proof Hp1 as (Hm1 & Hl1 & _).
  destruct (poll_cadence_step s1 name batt Hm1 Hl1)
    as (b & s2 & Hg2 & Hp2 & _ & _ & Hst2).
  destruct (Hst2 Hp1) as [Hmin2 _].
  pose proof Hp2 as (Hm2 & Hl2 & _).
  destruct (poll_cadence_step s2 name batt Hm2 Hl2)
    as (c & s3 & Hg3 & Hp3 & _ & _ & Hst3).
  destruct (Hst3 Hp2) as [Hmin3 _].
  destruct (polls_stopped name batt n s3 Hp3 ltac:(lia))
    as (rest & s' & Hrest & Hlen & Hall).
  exists a, b, c, rest, s'. split; [ | split; assumption ].
  cbn [Nat.add].
  exact (polls_cons _ _ _ _ _ _ _ _ Hg1
           (polls_cons _ _ _ _ _ _ _ _ Hg2
              (polls_cons _ _ _ _ _ _ _ _ Hg3 Hrest))).
Qed.

Lemma polls_cadence_goes_to_zero_witness :
  exists a b c rest s',
    polls "BK467" 100 5 (connected_with [2; 1; 0; 0; 4]) =
      (inr (a :: b :: c :: rest), s') /\
    List.length rest = 2%nat /\
    Forall (fun snap => snap_cadence snap = PyFloat 0) rest.
Proof.
  assert (Hl : (5 <= List.length (data (connected_with [2; 1; 0; 0; 4]%Z)))%nat)
    by (cbn; lia).
  assert (H0 : 0 <= prev_crank_staleness (connected_with [2; 1; 0; 0; 4]))
    by (cbn; lia).
  exact (polls_cadence_goes_to_zero (connected_with [2; 1; 0; 0; 4])
           "BK467" 100 2 eq_refl Hl H0).
Defined.

Lemma set_wheel_twice a b s : set_wheel a b (set_wheel a b s) = set_wheel a b s.
Proof. reflexivity. Qed.

Lemma wheel_rate_same_sample cum t :
  wheel_rate (cum - cum) (wrap_negative (t - t)) cum = 0%float.
Proof. now rewrite !Z.sub_diag. Qed.

(** A poll in speed mode of a payload that has been polled already. *)
Lemma generate_json_str_speed_again s cum t name batt :
  fst (get_mode s) = inr speed ->
  fst (get_cum_wheel_rev s) = inr cum ->
  fst (get_last_wheel_time s) = inr t ->
  generate_json_str name batt (set_wheel cum t s) =
  (inr (mkSnapshot name batt "speed" (PyInt 0) 0 0 0
          0%float 0%float cum t (ticks_to_sec t)),
   set_wheel cum t s).
Proof.
  intros Hm Hc Ht. set (s1 := set_wheel cum t s).
  assert (Hm1 : fst (get_mode s1) = inr speed)
    by (unfold s1; now rewrite get_mode_set_wheel).
  assert (Hc1 : fst (get_cum_wheel_rev s1) = inr cum)
    by (now rewrite (get_cum_wheel_rev_same_io s s1 eq_refl eq_refl)).
  assert (Ht1 : fst (get_last_wheel_time s1) = inr t)
    by (now rewrite (get_last_wheel_time_same_io s s1 eq_refl eq_refl)).
  rewrite (generate_json_str_speed s1 cum t name batt Hm1 Hc1 Ht1). cbv zeta.
  change (prev_combo_csc_cum_wheel_rev s1) with cum.
  change (prev_combo_csc_wheel_time s1) with t.
  rewrite wheel_rate_same_sample. unfold s1. now rewrite set_wheel_twice.
Qed.

(** X12.  In speed mode, with a payload of at least seven bytes, polling
    without a new notification gives the rate of the payload once: the
    first snapshot carries it, every later one reports the rate 0.0 and the
    speed 0.0 beside the same count and time, and the object does not change
    after the first poll. *)
Theorem polls_speed_goes_to_zero s name batt n :
  fst (get_mode s) = inr speed ->
  (7 <= List.length (data s))%nat ->
  let cum := le_value (field 1 4 (data s)) in
  let t := le_value (field 5 2 (data s)) in
  let rpm := wheel_rate (cum - prev_combo_csc_cum_wheel_rev s)
               (wrap_negative (t - prev_combo_csc_wheel_time s))
               (prev_combo_csc_cum_wheel_rev s) in
  polls name batt (S n) s =
  (inr (mkSnapshot name batt "speed" (PyInt 0) 0 0 0
          (kmph_of_rpm rpm) rpm cum t (ticks_to_sec t)
        :: repeat (mkSnapshot name batt "speed" (PyInt 0) 0 0 0
                     0%float 0%float cum t (ticks_to_sec t)) n),
   set_wheel cum t s).
Proof.
  intros Hm Hl cum t rpm.
  destruct (wheel_fields_run s Hm Hl) as [Hc Ht]. fold cum in Hc. fold t in Ht.
  apply (polls_cons _ _ _ _ _ (set_wheel cum t s)).
  - exact (generate_json_str_speed s cum t name batt Hm Hc Ht).
  - induction n as [|n IH]; [ reflexivity | ].
    cbn [repeat].
    exact (polls_cons _ _ _ _ _ _ _ _
             (generate_json_str_speed_again s cum t name batt Hm Hc Ht) IH).
Qed.

Lemma polls_speed_goes_to_zero_witness :
  polls "BK467" 100 3 ten_wheel_turns =
  (inr [mkSnapshot "BK467" 100 "speed" (PyInt 0) 0 0 0
          (kmph_of_rpm 600) 600%float 20 1024 1;
        mkSnapshot "BK467" 100 "speed" (PyInt 0) 0 0 0 0%float 0%float 20 1024 1;
        mkSnapshot "BK467" 100 "speed" (PyInt 0) 0 0 0 0%float 0%float 20 1024 1],
   set_wheel 20 1024 ten_wheel_turns).
Proof.
  assert (Hl : (7 <= List.length (data ten_wheel_turns))%nat) by (cbn; lia).
  exact (polls_speed_goes_to_zero ten_wheel_turns "BK467" 100 2 eq_refl Hl).
Defined.

(** X13.  A poll in cadence mode sets the wheel count field to zero, the
    mark of an estimator without a sample.  The first poll of a speed
    payload that arrives afterwards therefore reports the rate 0.0 and the
    speed 0.0, whatever that payload holds. *)
Theorem speed_after_cadence_poll s d name batt :
  fst (get_mode s) = inr cadence ->
  (5 <= List.length (data s))%nat ->
  let s' := speed_and_cadence_notify d (snd (generate_json_str name batt s)) in
  fst (get_mode s') = inr speed ->
  (7 <= List.length d)%nat ->
  prev_combo_csc_cum_wheel_rev s' = 0 /\
  exists snap,
    fst (generate_json_str name batt s') = inr snap /\
    snap_cycling_rpm snap = 0%float /\ snap_cycling_speed snap = 0%float /\
    snap_cum_wheel_rev snap = le_value (field 1 4 d).
Proof.
  intros Hm Hl s' Hm' Hl'.
  destruct (crank_fields_run s Hm Hl) as [Hc Ht].
  pose proof (generate_json_str_cadence s _ _ name batt Hm Hc Ht) as Hg.
  cbv zeta in Hg.
  destruct (calculate_cadence_frame (le_value (field 1 2 (data s)))
              (le_value (field 3 2 (data s))) (set_wheel 0 0 s))
    as (_ & _ & Hw & _).
  assert (Hz : prev_combo_csc_cum_wheel_rev s' = 0).
  { unfold s'. rewrite Hg. cbn [snd speed_and_cadence_notify
                                      prev_combo_csc_cum_wheel_rev].
    exact Hw. }
  split; [ exact Hz | ].
  assert (Hd : data s' = d) by reflexivity.
  rewrite <- Hd in Hl'.
  destruct (wheel_fields_run s' Hm' Hl') as [Hc' Ht'].
  rewrite (generate_json_str_speed s' _ _ name batt Hm' Hc' Ht').
  cbv zeta. eexists. split; [ reflexivity | ].
  cbn [snap_cycling_rpm snap_cycling_speed snap_cum_wheel_rev].
  rewrite Hz. unfold wheel_rate. rewrite andb_false_r.
  repeat split.
Qed.

Lemma speed_after_cadence_poll_witness :
  exists snap,
    fst (generate_json_str "BK467" 100
           (speed_and_cadence_notify [1; 20; 0; 0; 0; 0; 4]
              (snd (generate_json_str "BK467" 100
                      (set_wheel 7 9 (connected_with [2; 1; 0; 0; 4]))))))
    = inr snap /\
    snap_cycling_rpm snap = 0%float /\ snap_cycling_speed snap = 0%float /\
    snap_cum_wheel_rev snap = le_value (field 1 4 [1; 20; 0; 0; 0; 0; 4]).
Proof.
  assert (Hl : (5 <= List.length
                   (data (set_wheel 7 9 (connected_with [2; 1; 0; 0; 4]%Z))))%nat)
    by (cbn; lia).
  assert (Hl' : (7 <= List.length [1; 20; 0; 0; 0; 0; 4]%Z)%nat) by (cbn; lia).
  exact (proj2 (speed_after_cadence_poll
                  (set_wheel 7 9 (connected_with [2; 1; 0; 0; 4]))
                  [1; 20; 0; 0; 0; 0; 4] "BK467" 100 eq_refl Hl eq_refl Hl')).
Defined.

(** ** Seconds of an event time *)

Lemma holds_from_spec fuel p :
  forall z, holds_from fuel z p = true ->
  forall x, z <= x < z + Z.of_nat fuel -> p x = true.
Proof.
  induction fuel as [|k IH]; intros z H x Hx; [ lia | ].
  cbn [holds_from] in H. apply andb_prop in H as [H1 H2].
  destruct (Z.eq_dec x z) as [->|Hne]; [ exact H1 | ].
  apply (IH (z + 1) H2). lia.
Qed.

(** X14.  For every 16-bit event time the seconds field, computed through a
    float division and a truncation, is the integer quotient of the time by
    1024; it lies between 0 and 63. *)
Theorem ticks_to_sec_16bit t :
  0 <= t < 65536 ->
  ticks_to_sec t = t / 1024 /\ 0 <= ticks_to_sec t <= 63.
Proof.
  intros Ht.
  assert (E : ticks_to_sec t = t / 1024).
  { apply Z.eqb_eq.
    apply (holds_from_spec (Z.to_nat 65536)
             (fun z => ticks_to_sec z =? z / 1024) 0).
    - vm_compute. reflexivity.
    - lia. }
  split; [ exact E | ]. rewrite E.
  split; [ apply Z.div_pos; lia | ].
  apply Z.lt_succ_r, Z.div_lt_upper_bound; lia.
Qed.

Lemma ticks_to_sec_16bit_witness :
  ticks_to_sec 65535 = 63 /\ ticks_to_sec 1023 = 0.
Proof.
  destruct (ticks_to_sec_16bit 65535) as [H1 _]; [ lia | ].
  destruct (ticks_to_sec_16bit 1023) as [H2 _]; [ lia | ].
  rewrite H1, H2. split; reflexivity.
Defined.

(** ** The decoder loses nothing *)

Lemma le_value_inj bs :
  forall bs', List.length bs = List.length bs' ->
  Forall is_byte bs -> Forall is_byte bs' ->
  le_value bs = le_value bs' -> bs = bs'.
Proof.
  induction bs as [|b bs IH]; intros [|b' bs'] Hl Hb Hb' E;
    cbn [List.length] in Hl; try discriminate; [ reflexivity | ].
  apply Forall_cons_iff in Hb as [Hb Hbs].
  apply Forall_cons_iff in Hb' as [Hb' Hbs'].
  unfold is_byte in Hb, Hb'. cbn [le_value] in E.
  assert (b = b') by lia. subst b'.
  f_equal. apply IH; [ lia | assumption | assumption | lia ].
Qed.

Lemma field_is_byte off n d : Forall is_byte d -> Forall is_byte (field off n d).
Proof.
  intros H. unfold field.
  rewrite <- (firstn_skipn off d) in H. apply Forall_app in H as [_ H].
  rewrite <- (firstn_skipn n (skipn off d)) in H.
  now apply Forall_app in H as [H _].
Qed.

Lemma field_length off n d :
  (off + n <= List.length d)%nat -> List.length (field off n d) = n.
Proof.
  intros H. unfold field. rewrite length_firstn, length_skipn. lia.
Qed.

(** X15.  In speed mode two byte payloads of at least seven bytes that decode
    to the same wheel count and the same wheel time have the same bytes 1 to
    6; in cadence mode two byte payloads of at least five bytes that decode
    to the same crank count and time have the same bytes 1 to 4. *)
Theorem decoded_fields_determine_bytes s s' m :
  fst (get_mode s) = inr m ->
  fst (get_mode s') = inr m ->
  Forall is_byte (data s) ->
  Forall is_byte (data s') ->
  (match m with speed => 7 | cadence => 5 end <= List.length (data s))%nat ->
  (match m with speed => 7 | cadence => 5 end <= List.length (data s'))%nat ->
  match m with
  | speed =>
      fst (get_cum_wheel_rev s) = fst (get_cum_wheel_rev s') ->
      fst (get_last_wheel_time s) = fst (get_last_wheel_time s') ->
      field 1 4 (data s) = field 1 4 (data s') /\
      field 5 2 (data s) = field 5 2 (data s')
  | cadence =>
      fst (get_cum_crank_rev s) = fst (get_cum_crank_rev s') ->
      fst (get_last_crank_time s) = fst (get_last_crank_time s') ->
      field 1 2 (data s) = field 1 2 (data s') /\
      field 3 2 (data s) = field 3 2 (data s')
  end.
Proof.
  intros Hm Hm' Hb Hb' Hl Hl'. destruct m.
  - destruct (wheel_fields_run s Hm Hl) as [Hc Ht].
    destruct (wheel_fields_run s' Hm' Hl') as [Hc' Ht'].
    rewrite Hc, Hc', Ht, Ht'. intros Ec Et. split.
    + apply le_value_inj; try (now apply field_is_byte);
        [ rewrite !field_length; lia | congruence ].
    + apply le_value_inj; try (now apply field_is_byte);
        [ rewrite !field_length; lia | congruence ].
  - destruct (crank_fields_run s Hm Hl) as [Hc Ht].
    destruct (crank_fields_run s' Hm' Hl') as [Hc' Ht'].
    rewrite Hc, Hc', Ht, Ht'. intros Ec Et. split.
    + apply le_value_inj; try (now apply field_is_byte);
        [ rewrite !field_length; lia | congruence ].
    + apply le_value_inj; try (now apply field_is_byte);
        [ rewrite !field_length; lia | congruence ].
Qed.

Lemma decoded_fields_determine_bytes_witness :
  field 1 4 [1; 20; 0; 0; 0; 0; 4] = field 1 4 [5; 20; 0; 0; 0; 0; 4; 9] /\
  field 5 2 [1; 20; 0; 0; 0; 0; 4] = field 5 2 [5; 20; 0; 0; 0; 0; 4; 9].
Proof.
  assert (Hb : Forall is_byte (data (connected_with [1; 20; 0; 0; 0; 0; 4])))
    by (cbn; repeat constructor; unfold is_byte; lia).
  assert (Hb' : Forall is_byte (data (connected_with [5; 20; 0; 0; 0; 0; 4; 9])))
    by (cbn; repeat constructor; unfold is_byte; lia).
  assert (Hl : (7 <= List.length
                   (data (connected_with [1; 20; 0; 0; 0; 0; 4]%Z)))%nat)
    by (cbn; lia).
  assert (Hl' : (7 <= List.length
                   (data (connected_with [5; 20; 0; 0; 0; 0; 4; 9]%Z)))%nat)
    by (cbn; lia).
  exact (decoded_fields_determine_bytes
           (connected_with [1; 20; 0; 0; 0; 0; 4])
           (connected_with [5; 20; 0; 0; 0; 0; 4; 9])
           speed eq_refl eq_refl Hb Hb' Hl Hl' eq_refl eq_refl).
Defined.

(** ** Discovery *)





Lemma filter_first {A} (p : A -> bool) l d rest :
  filter p l = d :: rest ->
  exists pre post,
    l = pre ++ d :: post /\ p d = true /\
    (forall x, In x pre -> p x = false).
Proof.
  induction l as [|x l IH]; cbn [filter]; [ discriminate | ].
  destruct (p x) eqn:Hx.
  - intros H. injection H as -> _. exists [], l. repeat split; [ exact Hx | ].
    intros y [].
  - intros H. destruct (IH H) as (pre & post & -> & Hd & Hpre).
    exists (x :: pre), post. repeat split; [ exact Hd | ].
    intros y [<-|Hy]; [ exact Hx | now apply Hpre ].
Qed.

Lemma filter_none {A} (p : A -> bool) l :
  filter p l = [] <-> (forall x, In x l -> p x = false).
Proof.
  induction l as [|x l IH]; cbn [filter].
  - split; [ intros _ y [] | reflexivity ].
  - destruct (p x) eqn:Hx.
    + split; [ discriminate | ]. intros H.
      specialize (H x (or_introl eq_refl)). congruence.
    + rewrite IH. split.
      * intros H y [<-|Hy]; [ exact Hx | now apply H ].
      * intros H y Hy. apply H. now right.
Qed.

(** X17.  The first loop of [main] hands to [connect] the address of the
    first device, in the first round of discovery that has one, whose name
    contains ["BK6"]: rounds without such a device are skipped, and so are
    the devices discovered before it in its round.  While no round has such
    a device nothing is connected. *)
Theorem main_scan_first_match rounds :
  (forall a,
     main_scan rounds = Some a ->
     exists skipped round later pre d post,
       rounds = skipped ++ round :: later /\
       (forall r x, In r skipped -> In x r -> is_bk6 x = false) /\
       round = pre ++ d :: post /\
       (forall x, In x pre -> is_bk6 x = false) /\
       is_bk6 d = true /\ dev_address d = a) /\
  (main_scan rounds = None <->
   forall r x, In r rounds -> In x r -> is_bk6 x = false).
Proof.
  induction rounds as [|r rounds [IHs IHn]]; cbn [main_scan].
  - split; [ discriminate | ]. split; [ intros _ r x [] | reflexivity ].
  - destruct (scan_async r) as [|d rest] eqn:Hr; unfold scan_async in Hr.
    + pose proof (proj1 (filter_none is_bk6 r) Hr) as Hnone. split.
      * intros a Ha.
        destruct (IHs a Ha)
          as (skipped & round & later & pre & d & post & -> & Hsk & Hrest).
        exists (r :: skipped), round, later, pre, d, post.
        split; [ reflexivity | ]. split; [ | exact Hrest ].
        intros r' x [<-|Hin] Hx; [ now apply Hnone | now apply (Hsk r') ].
      * rewrite IHn. split.
        -- intros H r' x [<-|Hin] Hx; [ now apply Hnone | now apply (H r') ].
        -- intros H r' x Hin Hx. apply (H r'); [ now right | exact Hx ].
    + destruct (filter_first is_bk6 r d rest Hr) as (pre & post & -> & Hd & Hpre).
      split.
      * intros a Ha. injection Ha as <-.
        exists [], (pre ++ d :: post), rounds, pre, d, post.
        repeat split; try assumption. intros r' x [].
      * split; [ discriminate | ]. intros H.
        specialize (H (pre ++ d :: post) d (or_introl eq_refl)
                      (in_elt d pre post)).
        congruence.
Qed.


Lemma main_scan_first_match_witness :
  exists skipped round later pre d post,
    [[mkBLEDevice (Some "Watch"%string) "11:11"]; sample_round]
      = skipped ++ round :: later /\
    (forall r x, In r skipped -> In x r -> is_bk6 x = false) /\
    round = pre ++ d :: post /\
    (forall x, In x pre -> is_bk6 x = false) /\
    is_bk6 d = true /\ dev_address d = "33:33"%string.
Proof.
  exact (proj1 (main_scan_first_match
                  [[mkBLEDevice (Some "Watch"%string) "11:11"]; sample_round])
           "33:33"%string eq_refl).
Defined.
